(** * twine: the [upload] command ([twine/commands/upload.py])

    A shallow embedding of [skip_upload], [check_status_code] and [upload],
    with the properties of the upload orchestration proved about it. *)

From Stdlib Require Import ZArith Bool Ascii String List Lia.
From stdpp Require Import base option strings list gmap.

Local Open Scope Z_scope.
Local Open Scope string_scope.

#[local] Arguments String.append !s1 s2 : simpl nomatch.

(** ** Python [str] operations used by the module *)

Module PyStr.

(** [s.startswith(p)] for a single prefix [p]. *)
Fixpoint startswith (s p : string) {struct p} : bool :=
  match p, s with
  | EmptyString, _ => true
  | String _ _, EmptyString => false
  | String b p', String a s' => Ascii.eqb a b && startswith s' p'
  end.

(** [s.startswith(ps)] for a tuple of prefixes [ps]. *)
Definition startswith_any (s : string) (ps : list string) : bool :=
  existsb (startswith s) ps.

(** [s.endswith(p)]. *)
Fixpoint endswith (s p : string) : bool :=
  String.eqb s p ||
  match s with
  | EmptyString => false
  | String _ s' => endswith s' p
  end.

(** [sub in s]. *)
Fixpoint contains (s sub : string) : bool :=
  startswith s sub ||
  match s with
  | EmptyString => false
  | String _ s' => contains s' sub
  end.

(** Truthiness of a [str]: non-empty. *)
Definition truthy (s : string) : bool :=
  match s with EmptyString => false | String _ _ => true end.

(** The double-quote character, U+0022. *)
Definition dquote : string := String (ascii_of_nat 34) EmptyString.

(** [os.path.basename] on POSIX: everything after the last slash. *)
Fixpoint basename (p : string) : string :=
  match p with
  | EmptyString => EmptyString
  | String c p' =>
      if contains p' "/" then basename p'
      else if Ascii.eqb c "/"%char then p' else p
  end.

End PyStr.

(** ** HTTP responses *)

Record Response := mkResponse {
  status_code : Z;
  reason : string;
  text : string;
  url : string;
  is_redirect : bool;
  headers : gmap string string
}.

(** ** Packages *)

(** Modelled from the spec: [twine.package.PackageFile] is imported by the
    module and is not among the sources.  The spec gives a package a
    basename, a signed basename, an optional comment and an optional
    attached signature. *)
Record PackageFile := mkPackageFile {
  filename : string;
  pkg_comment : option string;
  basefilename : string;
  signed_basefilename : string;
  gpg_signature : option (string * string)
}.

(** Modelled from the spec: [PackageFile.from_filename], which is not among
    the sources.  The basename is the file's name, the signed basename is
    the basename with [.asc] appended, and no signature is attached yet. *)
Definition from_filename (filename : string) (comment : option string)
  : PackageFile :=
  {| filename := filename;
     pkg_comment := comment;
     basefilename := PyStr.basename filename;
     signed_basefilename := PyStr.basename filename ++ ".asc";
     gpg_signature := None |}.

(** Modelled from the spec: attaching a signature sets the package's
    attached-signature field and nothing else. *)
Definition with_gpg_signature (package : PackageFile)
    (signature_filename contents : string) : PackageFile :=
  {| filename := filename package;
     pkg_comment := pkg_comment package;
     basefilename := basefilename package;
     signed_basefilename := signed_basefilename package;
     gpg_signature := Some (signature_filename, contents) |}.

(** ** [skip_upload] *)

Definition msg_400 (filename : string) : list string :=
  [ "A file named " ++ PyStr.dquote ++ filename ++ PyStr.dquote
      ++ " already exists for";
    "File already exists";
    "Repository does not allow updating assets" ].

Definition msg_403 : string := "Not enough permissions to overwrite artifact".

Definition skip_upload (response : Response) (skip_existing : bool)
    (package : PackageFile) : bool :=
  skip_existing &&
  ((status_code response =? 409)%Z ||
   ((status_code response =? 400)%Z &&
    PyStr.startswith_any (reason response) (msg_400 (basefilename package))) ||
   ((status_code response =? 403)%Z &&
    PyStr.contains (text response) msg_403)).

(** ** Exceptions and results *)

Inductive exn :=
| RedirectDetected (repository_url redirect_url : string)
| UploadToDeprecatedPyPIDetected (message : string)
| InvalidPyPIUploadURL (message : string)
| HTTPError (response : Response)
| KeyError (key : string).

Inductive result (A : Type) :=
| Return (a : A)
| Raise (e : exn).
Arguments Return {A} a.
Arguments Raise {A} e.

(** ** [check_status_code]

    The function only inspects the response and prints; it is embedded as a
    pure function giving the lines printed and the result.  The two
    repository URLs are constants of [twine.utils], which is not among the
    sources: they are parameters here. *)

(** [requests.Response.raise_for_status]: an [HTTPError] for a 4xx or 5xx
    status, nothing otherwise. *)
Definition raise_for_status (response : Response) : result unit :=
  if (400 <=? status_code response)%Z && (status_code response <? 600)%Z
  then Raise (HTTPError response)
  else Return tt.

Definition newline : string := String (ascii_of_nat 10) EmptyString.

Section StatusValidator.

Variables DEFAULT_REPOSITORY TEST_REPOSITORY : string.

Definition deprecated_message : string :=
  "It appears you're uploading to pypi.python.org (or "
  ++ "testpypi.python.org). You've received a 410 error response. "
  ++ "Uploading to those sites is deprecated. The new sites are "
  ++ "pypi.org and test.pypi.org. Try using " ++ DEFAULT_REPOSITORY ++ " (or "
  ++ TEST_REPOSITORY ++ ") to upload your packages instead. These are "
  ++ "the default URLs for Twine now. More at "
  ++ "https://packaging.python.org/guides/migrating-to-pypi-org/.".

Definition invalid_url_message : string :=
  "It appears you're trying to upload to pypi.org but have an "
  ++ "invalid URL. You probably want one of these two URLs: "
  ++ DEFAULT_REPOSITORY ++ " or " ++ TEST_REPOSITORY ++ ". Check your "
  ++ "--repository-url value.".

Definition check_status_code (response : Response) (verbose : bool)
  : list string * result unit :=
  if (status_code response =? 410)%Z
     && PyStr.contains (url response) "pypi.python.org"
  then ([], Raise (UploadToDeprecatedPyPIDetected deprecated_message))
  else if (status_code response =? 405)%Z
          && PyStr.contains (url response) "pypi.org"
  then ([], Raise (InvalidPyPIUploadURL invalid_url_message))
  else
    match raise_for_status response with
    | Return _ => ([], Return tt)
    | Raise err =>
        ((if PyStr.truthy (text response) then
            if verbose then
              ["Content received from server:" ++ newline ++ text response]
            else ["NOTE: Try --verbose to see response content."]
          else []),
         Raise err)
    end.

End StatusValidator.

(** ** Settings

    The fields of [upload_settings] that [upload] reads;
    [repository] is [upload_settings.repository_config['repository']]. *)

Record Settings := mkSettings {
  skip_existing : bool;
  sign : bool;
  sign_with : string;
  identity : option string;
  verbose : bool;
  comment : option string;
  repository : string
}.

(** ** Observable actions *)

Inductive event :=
| Print (line : string)
| CreateRepository
| PackageIsUploaded (package : PackageFile) (answer : bool)
| AddGpgSignature (signature_filepath signature_filename : string)
| Sign (package : PackageFile) (sign_with : string) (identity : option string)
| Upload (package : PackageFile) (response : Response)
| ReleaseUrls (packages : list PackageFile) (urls : list string)
| Close.

(** ** The partitioner (the two comprehensions of [upload]) *)

Definition is_signature (d : string) : bool := PyStr.endswith d ".asc".

Definition signatures_of (dists : list string) : gmap string string :=
  foldl (fun m d => <[PyStr.basename d := d]> m) ∅
        (List.filter is_signature dists).

Definition uploads_of (dists : list string) : list string :=
  List.filter (fun i => negb (is_signature i)) dists.

(** ** The orchestrator *)

(** The collaborators of [upload], over an abstract state of the outside
    world (file system, network, index).  Each answers; a collaborator
    that raises instead ([_find_dists] on a missing path, before anything
    else happens) is outside this model, and every statement about a run
    is about a run whose collaborators answered. *)
Record Collaborators (World : Type) := mkCollaborators {
  _find_dists : list string -> World -> list string;
  check_repository_url : Settings -> option exn;
  read_file : string -> World -> string;
  gpg_sign : string -> option string -> string -> World -> string * World;
  package_is_uploaded : PackageFile -> World -> bool * World;
  repository_upload : PackageFile -> World -> Response * World;
  release_urls : list PackageFile -> World -> list string * World
}.
Arguments _find_dists {World} _ _ _.
Arguments check_repository_url {World} _ _.
Arguments read_file {World} _ _ _.
Arguments gpg_sign {World} _ _ _ _ _.
Arguments package_is_uploaded {World} _ _ _.
Arguments repository_upload {World} _ _ _.
Arguments release_urls {World} _ _ _.

(** What a run of [upload] has at hand: the outside world, the actions
    performed so far, and the local list [uploaded_packages]. *)
Record State (World : Type) := mkState {
  world : World;
  trace : list event;
  uploaded_packages : list PackageFile
}.
Arguments mkState {World} _ _ _.
Arguments world {World} _.
Arguments trace {World} _.
Arguments uploaded_packages {World} _.

Definition initial {World : Type} (w : World) : State World :=
  mkState w [] [].

Section Orchestrator.

Context {World : Type}.
Variable C : Collaborators World.
Variables DEFAULT_REPOSITORY TEST_REPOSITORY : string.
Variable upload_settings : Settings.

(** Computations that read and update the state and may raise. *)
Definition M (A : Type) : Type := State World -> result A * State World.

Definition ret {A} (a : A) : M A := fun st => (Return a, st).

Definition raise {A} (e : exn) : M A := fun st => (Raise e, st).

Definition bind {A B} (m : M A) (k : A -> M B) : M B :=
  fun st =>
    match m st with
    | (Return a, st') => k a st'
    | (Raise e, st') => (Raise e, st')
    end.

Notation "x <- m ;; k" := (bind m (fun x => k))
  (at level 100, m at next level, right associativity).
Notation "m ;;; k" := (bind m (fun _ => k))
  (at level 100, right associativity).

Definition emit (e : event) : M unit :=
  fun st => (Return tt,
             mkState (world st) (trace st ++ [e]) (uploaded_packages st)).

Definition print (line : string) : M unit := emit (Print line).

Fixpoint print_all (lines : list string) : M unit :=
  match lines with
  | [] => ret tt
  | line :: rest => print line ;;; print_all rest
  end.

(** A call to a collaborator that may change the world; the action
    recorded carries the answer. *)
Definition call {A} (f : World -> A * World) (ev : A -> event) : M A :=
  fun st =>
    let '(a, w) := f (world st) in
    (Return a, mkState w (trace st ++ [ev a]) (uploaded_packages st)).

Definition getitem (d : gmap string string) (key : string) : M string :=
  match d !! key with
  | Some v => ret v
  | None => raise (KeyError key)
  end.

(** Modelled from the spec: [PackageFile.add_gpg_signature], which is not
    among the sources; it attaches the contents of the signature file. *)
Definition add_gpg_signature (package : PackageFile)
    (signature_filepath signature_filename : string) : M PackageFile :=
  fun st =>
    (Return (with_gpg_signature package signature_filename
               (read_file C signature_filepath (world st))),
     mkState (world st)
             (trace st ++ [AddGpgSignature signature_filepath
                             signature_filename])
             (uploaded_packages st)).

(** Modelled from the spec: [PackageFile.sign], which is not among the
    sources; it invokes the external signing capability on the package's
    file and attaches its output. *)
Definition package_sign (package : PackageFile) (sign_with : string)
    (identity : option string) : M PackageFile :=
  out <- call (gpg_sign C sign_with identity (filename package))
              (fun _ => Sign package sign_with identity) ;;
  ret (with_gpg_signature package (signed_basefilename package) out).

(** Lines 116-120: the pre-supplied signature, else signing, else nothing. *)
Definition attach_signature (signatures : gmap string string)
    (package : PackageFile) : M PackageFile :=
  let signed_name := signed_basefilename package in
  match signatures !! signed_name with
  | Some path => add_gpg_signature package path signed_name
  | None =>
      if sign upload_settings then
        package_sign package (sign_with upload_settings)
                     (identity upload_settings)
      else ret package
  end.

Definition skip_message (package : PackageFile) : string :=
  "  Skipping " ++ basefilename package
  ++ " because it appears to already exist".

Definition append_uploaded (package : PackageFile) : M unit :=
  fun st => (Return tt,
             mkState (world st) (trace st)
                     (uploaded_packages st ++ [package])).

(** [check_status_code], with its lines printed. *)
Definition run_check_status_code (resp : Response) : M unit :=
  let '(lines, r) :=
    check_status_code DEFAULT_REPOSITORY TEST_REPOSITORY resp
                      (verbose upload_settings) in
  print_all lines ;;;
  match r with
  | Return _ => ret tt
  | Raise e => raise e
  end.

(** Lines 116-140 of the loop body: what happens to a package that the
    pre-check did not skip. *)
Definition attempt (signatures : gmap string string)
    (repository_url : string) (package : PackageFile) : M unit :=
  package <- attach_signature signatures package ;;
  resp <- call (repository_upload C package) (Upload package) ;;
  if is_redirect resp then
    location <- getitem (headers resp) "location" ;;
    raise (RedirectDetected repository_url location)
  else if skip_upload resp (skip_existing upload_settings) package then
    print (skip_message package)
  else
    run_check_status_code resp ;;;
    append_uploaded package.

(** The body of the [for] loop; [continue] is the end of the body. *)
Definition upload_one (signatures : gmap string string)
    (repository_url : string) (filename : string) : M unit :=
  let package := from_filename filename (comment upload_settings) in
  skip <- (if skip_existing upload_settings
           then call (package_is_uploaded C package)
                     (PackageIsUploaded package)
           else ret false) ;;
  if (skip : bool) then print (skip_message package)
  else attempt signatures repository_url package.

Fixpoint upload_loop (signatures : gmap string string)
    (repository_url : string) (uploads : list string) : M unit :=
  match uploads with
  | [] => ret tt
  | filename :: rest =>
      upload_one signatures repository_url filename ;;;
      upload_loop signatures repository_url rest
  end.

Definition upload (dists : list string) : M unit :=
  fun st0 =>
    let dists := _find_dists C dists (world st0) in
    let signatures := signatures_of dists in
    let uploads := uploads_of dists in
    (match check_repository_url C upload_settings with
     | Some e => raise e
     | None => ret tt
     end ;;;
     let repository_url := repository upload_settings in
     print ("Uploading distributions to " ++ repository_url) ;;;
     emit CreateRepository ;;;
     (fun st => (Return tt, mkState (world st) (trace st) [])) ;;;
     upload_loop signatures repository_url uploads ;;;
     urls <- (fun st => call (release_urls C (uploaded_packages st))
                             (ReleaseUrls (uploaded_packages st)) st) ;;
     (match urls with
      | [] => ret tt
      | _ :: _ => print (newline ++ "View at:") ;;; print_all urls
      end) ;;;
     emit Close) st0.

End Orchestrator.

(** ** Concrete collaborators, for running the model

    The world is the number of network requests made so far; every
    distribution exists, signatures and signing are canned. *)

Definition mock (known : PackageFile -> bool)
    (respond : PackageFile -> Response) : Collaborators nat :=
  {| _find_dists := fun dists _ => dists;
     check_repository_url := fun _ => None;
     read_file := fun path _ => "contents of " ++ path;
     gpg_sign := fun _ _ path w => ("signature of " ++ path, w);
     package_is_uploaded := fun p w => (known p, S w);
     repository_upload := fun p w => (respond p, S w);
     release_urls := fun ps w =>
       (map (fun p => "https://pypi.org/project/" ++ basefilename p) ps, w) |}.

Definition plain_response (status : Z) (reason text url : string) : Response :=
  mkResponse status reason text url false ∅.

Definition redirect_response (status : Z) (location : string) : Response :=
  mkResponse status "Moved" "" "https://upload.pypi.org/legacy/" true
             {[ "location" := location ]}.

Definition ok_response : Response :=
  plain_response 200 "OK" "" "https://upload.pypi.org/legacy/".

Definition default_settings : Settings :=
  {| skip_existing := false; sign := false; sign_with := "gpg";
     identity := None; verbose := false; comment := None;
     repository := "https://upload.pypi.org/legacy/" |}.

Definition skipping_settings : Settings :=
  {| skip_existing := true; sign := false; sign_with := "gpg";
     identity := None; verbose := false; comment := None;
     repository := "https://upload.pypi.org/legacy/" |}.

Definition signing_settings : Settings :=
  {| skip_existing := false; sign := true; sign_with := "gpg";
     identity := Some "me"; verbose := false; comment := None;
     repository := "https://upload.pypi.org/legacy/" |}.

Definition DEFAULT_REPOSITORY : string := "https://upload.pypi.org/legacy/".
Definition TEST_REPOSITORY : string := "https://test.pypi.org/legacy/".

(** ** Vocabulary of the statements *)

(** The skip condition with the second and third status-400 messages
    compared for equality, the first as a prefix. *)
Definition skip_condition_exact (response : Response) (flag : bool)
    (package : PackageFile) : Prop :=
  flag = true /\
  (status_code response = 409 \/
   (status_code response = 400 /\
    ((exists rest,
         reason response =
         ("A file named " ++ PyStr.dquote ++ basefilename package
          ++ PyStr.dquote ++ " already exists for") ++ rest) \/
     reason response = "File already exists" \/
     reason response = "Repository does not allow updating assets")) \/
   (status_code response = 403 /\
    exists pre post,
      text response =
      pre ++ "Not enough permissions to overwrite artifact" ++ post)).

(** The skip condition with each of the three status-400 messages taken as
    a prefix of the reason. *)
Definition skip_condition_prefix (response : Response) (flag : bool)
    (package : PackageFile) : Prop :=
  flag = true /\
  (status_code response = 409 \/
   (status_code response = 400 /\
    exists m rest,
      In m (msg_400 (basefilename package)) /\ reason response = m ++ rest) \/
   (status_code response = 403 /\
    exists pre post, text response = pre ++ msg_403 ++ post)).

Definition warehouse_duplicate : Response :=
  plain_response 400 "File already exists. See https://pypi.org/help/" ""
                 "https://upload.pypi.org/legacy/".

Definition pkg_1_0 : PackageFile := from_filename "dist/pkg-1.0.tar.gz" None.

(** [sub] occurs somewhere in [s]. *)
Definition mentions (s sub : string) : Prop :=
  exists pre post, s = pre ++ sub ++ post.

Definition deprecated_host_response (response : Response) : Prop :=
  status_code response = 410 /\ mentions (url response) "pypi.python.org".

Definition modern_host_response (response : Response) : Prop :=
  status_code response = 405 /\ mentions (url response) "pypi.org".

Definition error_status (response : Response) : Prop :=
  400 <= status_code response < 600.

Definition gone_legacy : Response :=
  plain_response 410 "Gone" "" "https://pypi.python.org/pypi".

Definition not_allowed_lookalike : Response :=
  plain_response 405 "Method Not Allowed" "" "https://notpypi.org/simple".

Definition gone_elsewhere : Response :=
  plain_response 410 "Gone" "" "https://example.com/pypi".

Definition not_allowed_elsewhere : Response :=
  plain_response 405 "Method Not Allowed" "" "https://example.com/simple".

Definition server_error : Response :=
  plain_response 500 "Internal Server Error" "oops" "https://example.com/".

(** The exception raised for a redirect response. *)
Definition redirect_exn (repository_url : string) (response : Response) : exn :=
  match headers response !! "location" with
  | Some target => RedirectDetected repository_url target
  | None => KeyError "location"
  end.

Definition redirected (ev : event) : bool :=
  match ev with
  | Upload _ response => is_redirect response
  | _ => false
  end.

(** The status validator raised nothing. *)
Definition passes (checked : list string * result unit) : bool :=
  match snd checked with
  | Return _ => true
  | Raise _ => false
  end.

(** The package of an upload attempt that passed the redirect guard, was
    not classified as a skip and passed the status validator. *)
Definition accepted (D T : string) (upload_settings : Settings) (ev : event)
  : option PackageFile :=
  match ev with
  | Upload package response =>
      if negb (is_redirect response)
         && negb (skip_upload response (skip_existing upload_settings) package)
         && passes (check_status_code D T response (verbose upload_settings))
      then Some package
      else None
  | _ => None
  end.

(** What the loop may do, action by action. *)
Definition loop_event (upload_settings : Settings)
    (signatures : gmap string string) (ev : event) : Prop :=
  match ev with
  | Print _ => True
  | PackageIsUploaded _ _ => skip_existing upload_settings = true
  | AddGpgSignature path name => signatures !! name = Some path
  | Sign package program key =>
      signatures !! signed_basefilename package = None /\
      sign upload_settings = true /\
      program = sign_with upload_settings /\
      key = identity upload_settings
  | Upload package _ =>
      gpg_signature package = None <->
      (signatures !! signed_basefilename package = None /\
       sign upload_settings = false)
  | CreateRepository | ReleaseUrls _ _ | Close => False
  end.

Definition redirect_free (evs : list event) : Prop :=
  Forall (fun ev => redirected ev = false) evs.

(** A redirect response, if any, is the last action, and raises. *)
Definition redirect_last (repository_url : string) (evs : list event)
    (res : result unit) : Prop :=
  match res with
  | Return _ => redirect_free evs
  | Raise e =>
      redirect_free evs \/
      exists evs0 package response,
        evs = (evs0 ++ [Upload package response])%list /\
        redirect_free evs0 /\
        is_redirect response = true /\
        e = redirect_exn repository_url response
  end.

(** The actions of the final report: the [View at:] block, if any URL. *)
Definition view_lines (urls : list string) : list event :=
  match urls with
  | [] => []
  | _ :: _ => Print (newline ++ "View at:") :: map Print urls
  end.

(** The actions before the loop. *)
Definition preamble (upload_settings : Settings) : list event :=
  [Print ("Uploading distributions to " ++ repository upload_settings);
   CreateRepository].

(** What the loop establishes from one state to a later one: the actions
    added, the packages accumulated, and how a raise may come about. *)
Definition step_inv {World : Type} (D T : string) (upload_settings : Settings)
    (signatures : gmap string string) (repository_url : string)
    (st : State World) (out : result unit * State World) : Prop :=
  exists evs,
    trace out.2 = (trace st ++ evs)%list /\
    uploaded_packages out.2 =
      (uploaded_packages st ++ omap (accepted D T upload_settings) evs)%list /\
    Forall (loop_event upload_settings signatures) evs /\
    redirect_last repository_url evs out.1.

(** How the signature of a package comes about, action by action: signing
    only without a pre-supplied signature and with the sign option; a
    pre-supplied signature only if the map has it; an unsigned upload only
    in the absence of both. *)
Definition signature_rule (upload_settings : Settings)
    (signatures : gmap string string) (ev : event) : Prop :=
  match ev with
  | Sign package _ _ =>
      signatures !! signed_basefilename package = None /\
      sign upload_settings = true
  | AddGpgSignature path name => signatures !! name = Some path
  | Upload package _ =>
      gpg_signature package = None <->
      (signatures !! signed_basefilename package = None /\
       sign upload_settings = false)
  | _ => True
  end.

(** The path ends with the literal suffix [.asc]. *)
Definition ends_with_asc (path : string) : Prop :=
  exists stem, path = stem ++ ".asc".

Definition shadowed_dists : list string := ["a/x.asc"; "b/x.asc"].

Definition conflict_response : Response :=
  plain_response 409 "Conflict" "" "https://upload.pypi.org/legacy/".

Definition scenario_dists : list string :=
  ["dist/pkg-1.0.tar.gz"; "dist/pkg-1.0.tar.gz.asc"].

Definition mirror_redirect : Response :=
  redirect_response 301 "https://mirror.example/x".

(** Goals about the actions of a step, constructor by constructor. *)
Ltac events :=
  repeat first [apply List.Forall_nil | apply List.Forall_cons];
  first [done | assumption].

(** The paths of the upload requests made, in order. *)
Definition attempted (evs : list event) : list string :=
  omap (fun ev => match ev with
                  | Upload package _ => Some (filename package)
                  | _ => None
                  end) evs.

(** A release-URL query. *)
Definition is_release_query (ev : event) : Prop :=
  match ev with
  | ReleaseUrls _ _ => True
  | _ => False
  end.

Definition forbidden_response : Response :=
  plain_response 403 "Forbidden"
    "Not enough permissions to overwrite artifact 'pkg-1.0.tar.gz'"
    "https://artifactory.example/api/pypi".

(** The order in which a stretch of the loop over [paths] makes its upload
    requests: a subsequence of [paths]; without skip-existing an initial
    part of [paths], and all of it, each path accumulated, when the stretch
    completes. *)
Definition order_inv {World : Type} (upload_settings : Settings)
    (paths : list string) (st : State World)
    (out : result unit * State World) : Prop :=
  exists evs,
    trace out.2 = (trace st ++ evs)%list /\
    sublist (attempted evs) paths /\
    (skip_existing upload_settings = false ->
     (exists rest, paths = (attempted evs ++ rest)%list) /\
     (out.1 = Return tt ->
      attempted evs = paths /\
      map filename (uploaded_packages out.2)
      = (map filename (uploaded_packages st) ++ paths)%list)).

(** The settings with the verbose flag set to [v]. *)
Definition with_verbose (v : bool) (s : Settings) : Settings :=
  {| skip_existing := skip_existing s; sign := sign s;
     sign_with := sign_with s; identity := identity s;
     verbose := v; comment := comment s; repository := repository s |}.

Definition not_print (ev : event) : bool :=
  match ev with
  | Print _ => false
  | _ => true
  end.

(** Two states that differ at most in the lines printed. *)
Definition same_but_prints {World : Type} (st st' : State World) : Prop :=
  world st = world st' /\
  uploaded_packages st = uploaded_packages st' /\
  List.filter not_print (trace st) = List.filter not_print (trace st').

(** Two computations that, from states differing at most in the lines
    printed, give the same result and again such states. *)
Definition same_but_prints_M {World A : Type} (m m' : @M World A) : Prop :=
  forall st st',
    same_but_prints st st' ->
    (m st).1 = (m' st').1 /\ same_but_prints (m st).2 (m' st').2.

(** * Properties *)

(** ** The string operations meet their Python meaning *)

Module PyStrFacts.
Import PyStr.

Lemma append_assoc (a b c : string) : (a ++ b) ++ c = a ++ b ++ c.
Proof. induction a as [|x a IH]; simpl; [reflexivity | by rewrite IH]. Qed.

Lemma startswith_spec (s p : string) :
  startswith s p = true <-> exists rest, s = p ++ rest.
Proof.
  revert s; induction p as [|b p IH]; intros s; simpl.
  - split; [intros _; exists s; reflexivity | reflexivity].
  - destruct s as [|a s].
    + split; [discriminate | intros [rest H]; discriminate].
    + rewrite andb_true_iff, Ascii.eqb_eq, IH. split.
      * intros [-> [rest ->]]. exists rest. reflexivity.
      * intros [rest H]. injection H as -> ->. eauto.
Qed.

Lemma startswith_refl (s : string) : startswith s s = true.
Proof. induction s as [|a s IH]; simpl; [reflexivity|]. by rewrite Ascii.eqb_refl. Qed.

Lemma contains_spec (s sub : string) :
  contains s sub = true <-> exists pre post, s = pre ++ sub ++ post.
Proof.
  induction s as [|a s IH]; simpl.
  - rewrite orb_false_r, startswith_spec. split.
    + intros [rest H]. exists "", rest. exact H.
    + intros [[|c pre] [post H]]; [eauto | discriminate].
  - rewrite orb_true_iff, startswith_spec, IH. split.
    + intros [[rest H] | (pre & post & H)].
      * exists "", rest. exact H.
      * exists (String a pre), post. simpl. congruence.
    + intros [[|c pre] [post H]].
      * left. exists post. exact H.
      * right. simpl in H. injection H as _ H. eauto.
Qed.

Lemma endswith_unfold (s p : string) :
  endswith s p =
  String.eqb s p ||
  match s with EmptyString => false | String _ s' => endswith s' p end.
Proof. destruct s; reflexivity. Qed.

Lemma endswith_spec (s p : string) :
  endswith s p = true <-> exists pre, s = pre ++ p.
Proof.
  induction s as [|a s IH]; rewrite endswith_unfold.
  - rewrite orb_false_r, String.eqb_eq. split.
    + intros <-. exists "". reflexivity.
    + intros [[|c pre] H]; [exact H | discriminate].
  - rewrite orb_true_iff, String.eqb_eq, IH. split.
    + intros [<- | [pre ->]]; [exists "" | exists (String a pre)]; reflexivity.
    + intros [[|c pre] H]; [left; exact H |].
      right. simpl in H. injection H as _ H. eauto.
Qed.

Example basename_nested : basename "build/dist/pkg-1.0.tar.gz" = "pkg-1.0.tar.gz".
Proof. reflexivity. Qed.

Example basename_plain : basename "pkg-1.0.tar.gz" = "pkg-1.0.tar.gz".
Proof. reflexivity. Qed.

Example basename_trailing_slash : basename "dist/" = "".
Proof. reflexivity. Qed.

Example endswith_asc : endswith "pkg-1.0.tar.gz.asc" ".asc" = true.
Proof. reflexivity. Qed.

Example endswith_not_asc : endswith "pkg-1.0.asc.tar.gz" ".asc" = false.
Proof. reflexivity. Qed.

Example contains_lookalike : contains "https://notpypi.org/simple" "pypi.org" = true.
Proof. reflexivity. Qed.

(** The basename of a path is the part after its last slash. *)
Lemma basename_spec (dir name : string) :
  contains name "/" = false ->
  basename (dir ++ "/" ++ name) = name.
Proof.
  intros Hname. set (tail := "/" ++ name).
  induction dir as [|c dir IH].
  - unfold tail. simpl. by rewrite Hname.
  - assert (H : contains (dir ++ tail) "/" = true).
    { apply contains_spec. by exists dir, name. }
    change (String c dir ++ tail) with (String c (dir ++ tail)).
    cbn [basename]. by rewrite H.
Qed.

End PyStrFacts.

(** ** The response classifier *)

Section Classifier.
Import PyStrFacts.

Lemma startswith_any_spec (s : string) (ps : list string) :
  PyStr.startswith_any s ps = true <->
  exists m rest, In m ps /\ s = m ++ rest.
Proof.
  unfold PyStr.startswith_any. rewrite existsb_exists. split.
  - intros (m & Hin & H). apply startswith_spec in H as [rest ->]. eauto.
  - intros (m & rest & Hin & ->). exists m. split; [exact Hin|].
    apply startswith_spec. eauto.
Qed.

(** C2, as stated, fails: a status-400 reason that merely starts with
    [File already exists] is skipped. *)
Lemma skip_upload_exact_counterexample :
  skip_upload warehouse_duplicate true pkg_1_0 = true /\
  ~ skip_condition_exact warehouse_duplicate true pkg_1_0.
Proof.
  split; [reflexivity|].
  intros [_ [H | [[_ H] | [H _]]]]; try discriminate H.
  destruct H as [[rest H] | [H | H]]; discriminate H.
Qed.

(** C2, amended: [skip_upload] answers true exactly when the flag is set
    and the status is 409, or the status is 400 and the reason starts with
    one of the three known messages, or the status is 403 and the body
    contains the permissions message. *)
Theorem skip_upload_iff (response : Response) (flag : bool)
    (package : PackageFile) :
  skip_upload response flag package = true <->
  skip_condition_prefix response flag package.
Proof.
  unfold skip_upload, skip_condition_prefix.
  rewrite andb_true_iff, !orb_true_iff, !andb_true_iff, !Z.eqb_eq.
  rewrite startswith_any_spec, contains_spec. tauto.
Qed.

End Classifier.

(** ** The status validator *)

Section Validator.
Import PyStrFacts.

Variables D T : string.

Lemma contains_mentions (s sub : string) :
  PyStr.contains s sub = true <-> mentions s sub.
Proof. apply contains_spec. Qed.

Lemma contains_false (s sub : string) :
  ~ mentions s sub -> PyStr.contains s sub = false.
Proof.
  intros H. destruct (PyStr.contains s sub) eqn:E; [|reflexivity].
  apply contains_mentions in E. contradiction.
Qed.

Lemma mentions_here (sub post : string) : mentions (sub ++ post) sub.
Proof. by exists "", post. Qed.

Lemma mentions_app_r (pre s sub : string) :
  mentions s sub -> mentions (pre ++ s) sub.
Proof.
  intros (a & b & ->). exists (pre ++ a), b. by rewrite append_assoc.
Qed.

Lemma deprecated_message_mentions :
  mentions (deprecated_message D T) D /\ mentions (deprecated_message D T) T.
Proof.
  unfold deprecated_message.
  split; repeat first [apply mentions_here | apply mentions_app_r].
Qed.

Lemma invalid_url_message_mentions :
  mentions (invalid_url_message D T) D /\
  mentions (invalid_url_message D T) T.
Proof.
  unfold invalid_url_message.
  split; repeat first [apply mentions_here | apply mentions_app_r].
Qed.

Lemma check_deprecated (response : Response) (verbose : bool) :
  deprecated_host_response response ->
  check_status_code D T response verbose =
  ([], Raise (UploadToDeprecatedPyPIDetected (deprecated_message D T))).
Proof.
  intros [Hs Hu]. apply contains_mentions in Hu.
  unfold check_status_code. rewrite Hs, Hu. reflexivity.
Qed.

Lemma check_invalid (response : Response) (verbose : bool) :
  modern_host_response response ->
  check_status_code D T response verbose =
  ([], Raise (InvalidPyPIUploadURL (invalid_url_message D T))).
Proof.
  intros [Hs Hu]. apply contains_mentions in Hu.
  unfold check_status_code. rewrite Hs, Hu. reflexivity.
Qed.

Lemma check_generic (response : Response) (verbose : bool) :
  ~ deprecated_host_response response ->
  ~ modern_host_response response ->
  snd (check_status_code D T response verbose) = raise_for_status response.
Proof.
  intros Hd Hm. unfold check_status_code.
  destruct ((status_code response =? 410)%Z
            && PyStr.contains (url response) "pypi.python.org") eqn:E1.
  { exfalso. apply Hd. apply andb_true_iff in E1 as [E1 E2].
    apply Z.eqb_eq in E1. apply contains_mentions in E2. by split. }
  destruct ((status_code response =? 405)%Z
            && PyStr.contains (url response) "pypi.org") eqn:E2.
  { exfalso. apply Hm. apply andb_true_iff in E2 as [E2 E3].
    apply Z.eqb_eq in E2. apply contains_mentions in E3. by split. }
  destruct (raise_for_status response) as [[]|e]; reflexivity.
Qed.

Lemma raise_for_status_spec (response : Response) :
  (error_status response ->
   raise_for_status response = Raise (HTTPError response)) /\
  (~ error_status response -> raise_for_status response = Return tt).
Proof.
  unfold raise_for_status, error_status.
  destruct (400 <=? status_code response)%Z eqn:E1;
    destruct (status_code response <? 600)%Z eqn:E2; simpl;
    split; intros H; try reflexivity; exfalso; lia.
Qed.

(** C7: the status validator applies its rules in order: a 410 from a URL
    naming the deprecated host raises [UploadToDeprecatedPyPIDetected]
    with a message naming the two repository URLs; else a 405 from a URL
    naming the modern host raises [InvalidPyPIUploadURL]; else an
    [HTTPError] is raised exactly for a 4xx or 5xx status; otherwise
    nothing is raised. *)
Theorem check_status_code_rules (response : Response) (verbose : bool) :
  (deprecated_host_response response ->
   exists msg,
     snd (check_status_code D T response verbose) =
     Raise (UploadToDeprecatedPyPIDetected msg) /\
     mentions msg D /\ mentions msg T) /\
  (~ deprecated_host_response response ->
   modern_host_response response ->
   exists msg,
     snd (check_status_code D T response verbose) =
     Raise (InvalidPyPIUploadURL msg) /\
     mentions msg D /\ mentions msg T) /\
  (~ deprecated_host_response response ->
   ~ modern_host_response response ->
   (error_status response ->
    snd (check_status_code D T response verbose) =
    Raise (HTTPError response)) /\
   (~ error_status response ->
    snd (check_status_code D T response verbose) = Return tt)).
Proof.
  split; [|split].
  - intros H. exists (deprecated_message D T).
    rewrite (check_deprecated _ _ H).
    split; [reflexivity | apply deprecated_message_mentions].
  - intros _ H. exists (invalid_url_message D T).
    rewrite (check_invalid _ _ H).
    split; [reflexivity | apply invalid_url_message_mentions].
  - intros Hd Hm. rewrite (check_generic _ _ Hd Hm).
    apply raise_for_status_spec.
Qed.

(** C10: the host detections are substring tests over the whole URL: a 405
    whose URL contains [pypi.org] anywhere raises [InvalidPyPIUploadURL],
    a 410 whose URL contains [pypi.python.org] anywhere raises
    [UploadToDeprecatedPyPIDetected], and a 410 or 405 whose URL lacks the
    respective substring raises the generic [HTTPError]. *)
Theorem host_detection_is_substring (response : Response) (verbose : bool) :
  (status_code response = 405 ->
   (forall pre post,
       url response = pre ++ "pypi.org" ++ post ->
       snd (check_status_code D T response verbose) =
       Raise (InvalidPyPIUploadURL (invalid_url_message D T))) /\
   (~ mentions (url response) "pypi.org" ->
    snd (check_status_code D T response verbose) =
    Raise (HTTPError response))) /\
  (status_code response = 410 ->
   (forall pre post,
       url response = pre ++ "pypi.python.org" ++ post ->
       snd (check_status_code D T response verbose) =
       Raise (UploadToDeprecatedPyPIDetected (deprecated_message D T))) /\
   (~ mentions (url response) "pypi.python.org" ->
    snd (check_status_code D T response verbose) =
    Raise (HTTPError response))).
Proof.
  split; intros Hs; split.
  - intros pre post Hu. rewrite check_invalid; [reflexivity|].
    split; [exact Hs | by exists pre, post].
  - intros Hn. rewrite check_generic.
    + apply raise_for_status_spec. unfold error_status. lia.
    + intros [H _]. lia.
    + intros [_ H]. contradiction.
  - intros pre post Hu. rewrite check_deprecated; [reflexivity|].
    split; [exact Hs | by exists pre, post].
  - intros Hn. rewrite check_generic.
    + apply raise_for_status_spec. unfold error_status. lia.
    + intros [_ H]. contradiction.
    + intros [H _]. lia.
Qed.

End Validator.

(** ** The orchestrator *)

Section Loop.

Context {World : Type}.
Variable C : Collaborators World.
Variables D T : string.
Variable upload_settings : Settings.
Variable signatures : gmap string string.
Variable repository_url : string.


Lemma print_all_run (lines : list string) (st : State World) :
  print_all lines st =
  (Return tt,
   mkState (world st) (trace st ++ map Print lines) (uploaded_packages st)).
Proof.
  revert st; induction lines as [|l lines IH]; intros st; simpl.
  - unfold ret. rewrite app_nil_r. by destruct st.
  - unfold bind, print, emit. rewrite IH. simpl. by rewrite <- app_assoc.
Qed.

Local Abbreviation inv :=
  (step_inv D T upload_settings signatures repository_url).

Lemma attach_signature_run (package : PackageFile) (st : State World) :
  gpg_signature package = None ->
  exists package' w evs,
    attach_signature C upload_settings signatures package st =
      (Return package',
       mkState w (trace st ++ evs) (uploaded_packages st)) /\
    basefilename package' = basefilename package /\
    signed_basefilename package' = signed_basefilename package /\
    (gpg_signature package' = None <->
     signatures !! signed_basefilename package = None /\
     sign upload_settings = false) /\
    Forall (loop_event upload_settings signatures) evs /\
    redirect_free evs /\
    omap (accepted D T upload_settings) evs = [].
Proof.
  intros Hnone. unfold attach_signature.
  destruct (signatures !! signed_basefilename package) as [path|] eqn:Hk.
  - eexists _, _, [_]. split; [reflexivity|]. simpl.
    repeat split; try discriminate; try (by intros [? _]).
    + by repeat constructor.
    + by repeat constructor.
  - destruct (sign upload_settings) eqn:Hs.
    + unfold package_sign, bind, call, ret.
      destruct (gpg_sign C _ _ _ _) as [out w].
      eexists _, _, [_]. split; [reflexivity|]. simpl.
      repeat split; try discriminate; try (by intros [_ ?]).
      * by repeat constructor.
      * by repeat constructor.
    + eexists package, (world st), []. unfold ret.
      rewrite app_nil_r. split; [by destruct st|].
      repeat split; try done; constructor.
Qed.

Lemma step_inv_prefix {A} (m : M A) (k : A -> M unit) (st st1 : State World)
    (a : A) (evs : list event) :
  m st = (Return a, st1) ->
  trace st1 = (trace st ++ evs)%list ->
  uploaded_packages st1 = uploaded_packages st ->
  Forall (loop_event upload_settings signatures) evs ->
  redirect_free evs ->
  omap (accepted D T upload_settings) evs = [] ->
  inv st1 (k a st1) ->
  inv st (bind m k st).
Proof.
  intros Hm Ht Hu Hev Hrf Hacc (evs' & Ht' & Hu' & Hev' & Hrl).
  unfold bind. rewrite Hm. exists (evs ++ evs')%list.
  rewrite Ht', Ht, Hu', Hu, omap_app, Hacc, app_assoc.
  repeat split; [by apply Forall_app|].
  destruct ((k a st1).1) as [[]|e]; simpl in *.
  - by apply Forall_app.
  - destruct Hrl as [Hrl | (evs0 & p & r & -> & H0 & Hr & ->)].
    + left. by apply Forall_app.
    + right. exists (evs ++ evs0)%list, p, r.
      rewrite app_assoc. repeat split; try done. by apply Forall_app.
Qed.

Lemma prints_loop_event (lines : list string) :
  Forall (loop_event upload_settings signatures) (map Print lines).
Proof. induction lines; by constructor. Qed.

Lemma prints_redirect_free (lines : list string) :
  redirect_free (map Print lines).
Proof. induction lines; by constructor. Qed.

Lemma prints_not_accepted (lines : list string) :
  omap (accepted D T upload_settings) (map Print lines) = [].
Proof. induction lines; [reflexivity | exact IHlines]. Qed.

Lemma omap_cons_None {A B} (f : A -> option B) (x : A) (l : list A) :
  f x = None -> omap f (x :: l) = omap f l.
Proof. intros H. change (omap f (x :: l)) with
    (match f x with Some y => y :: omap f l | None => omap f l end).
  by rewrite H.
Qed.

Lemma omap_cons_Some {A B} (f : A -> option B) (x : A) (y : B) (l : list A) :
  f x = Some y -> omap f (x :: l) = y :: omap f l.
Proof. intros H. change (omap f (x :: l)) with
    (match f x with Some y => y :: omap f l | None => omap f l end).
  by rewrite H.
Qed.

Lemma accepted_redirect (package : PackageFile) (response : Response) :
  is_redirect response = true ->
  accepted D T upload_settings (Upload package response) = None.
Proof. intros H. unfold accepted. by rewrite H. Qed.

Lemma accepted_skip (package : PackageFile) (response : Response) :
  skip_upload response (skip_existing upload_settings) package = true ->
  accepted D T upload_settings (Upload package response) = None.
Proof. intros H. unfold accepted. by rewrite H, andb_false_r. Qed.

Lemma accepted_checked (package : PackageFile) (response : Response) :
  is_redirect response = false ->
  skip_upload response (skip_existing upload_settings) package = false ->
  accepted D T upload_settings (Upload package response) =
  if passes (check_status_code D T response (verbose upload_settings))
  then Some package else None.
Proof. intros H1 H2. unfold accepted. by rewrite H1, H2. Qed.

Lemma attempt_inv (package : PackageFile) (st1 : State World) :
  gpg_signature package = None ->
  inv st1
    (attempt C D T upload_settings signatures repository_url package st1).
Proof.
  intros Hnone. unfold attempt.
  destruct (attach_signature_run package st1 Hnone)
    as (pkg' & w2 & evs & Hrun & Hb & Hsb & Hsig & Hev & Hrf & Hacc).
  eapply step_inv_prefix; [exact Hrun | reflexivity | reflexivity | ..];
    try done.
  rewrite <- Hsb in Hsig.
  generalize (mkState w2 (trace st1 ++ evs) (uploaded_packages st1)).
  clear st1 Hrun. intros st2.
  unfold step_inv, bind, call.
  destruct (repository_upload C pkg' (world st2)) as [resp w3].
  assert (Hl : loop_event upload_settings signatures (Upload pkg' resp))
    by exact Hsig.
  destruct (is_redirect resp) eqn:Hred.
  - exists [Upload pkg' resp].
    rewrite (omap_cons_None _ _ _ (accepted_redirect pkg' resp Hred)).
    unfold getitem, redirect_last, redirect_exn.
    destruct (headers resp !! "location") as [target|] eqn:Hloc;
      unfold ret, raise; cbn [fst snd trace uploaded_packages omap list_omap];
      rewrite app_nil_r;
      (repeat split; [events|]); right; exists [], pkg', resp;
      rewrite Hloc; repeat split; try done; constructor.
  - destruct (skip_upload resp (skip_existing upload_settings) pkg')
      eqn:Hskip.
    + exists [Upload pkg' resp; Print (skip_message pkg')].
      rewrite (omap_cons_None _ _ _ (accepted_skip pkg' resp Hskip)).
      unfold print, emit, redirect_last.
      cbn [fst snd trace uploaded_packages omap list_omap accepted].
      rewrite app_nil_r, <- app_assoc.
      repeat split; [events|].
      constructor; [exact Hred | events].
    + unfold run_check_status_code.
      pose proof (accepted_checked pkg' resp Hred Hskip) as Hacc'.
      destruct (check_status_code D T resp (verbose upload_settings))
        as [lines r].
      exists (Upload pkg' resp :: map Print lines).
      pose proof (prints_loop_event lines).
      pose proof (prints_redirect_free lines).
      unfold bind. rewrite print_all_run.
      unfold passes in Hacc'. cbn [snd] in Hacc'.
      destruct r as [[]|e]; unfold ret, raise, append_uploaded;
        cbn [fst snd trace uploaded_packages world].
      * rewrite (omap_cons_Some _ _ _ _ Hacc'), prints_not_accepted.
        rewrite <- app_assoc.
        repeat split; [events|].
        constructor; [exact Hred | assumption].
      * rewrite (omap_cons_None _ _ _ Hacc'), prints_not_accepted.
        rewrite app_nil_r, <- app_assoc.
        repeat split; [events|].
        left. constructor; [exact Hred | assumption].
Qed.

Lemma upload_one_inv (filename : string) (st : State World) :
  inv st
    (upload_one C D T upload_settings signatures repository_url filename st).
Proof.
  unfold upload_one.
  set (package := from_filename filename (comment upload_settings)).
  assert (Htail : forall st1,
             inv st1
               (attempt C D T upload_settings signatures repository_url
                        package st1))
    by (intros st1; by apply attempt_inv).
  unfold bind at 1.
  destruct (skip_existing upload_settings) eqn:Hse.
  - unfold call at 1.
    destruct (package_is_uploaded C package (world st)) as [known w1] eqn:Hk.
    destruct known.
    + exists [PackageIsUploaded package true; Print (skip_message package)].
      unfold print, emit.
      cbn [fst snd trace uploaded_packages world omap list_omap accepted].
      rewrite app_nil_r, <- app_assoc.
      repeat split; [events | events].
    + cbv beta iota.
      set (st1 := mkState w1 (trace st ++ [PackageIsUploaded package false])
                          (uploaded_packages st)).
      destruct (Htail st1) as (evs & Ht & Hu & Hev & Hrl).
      exists (PackageIsUploaded package false :: evs).
      rewrite Ht, Hu. subst st1. cbn [trace uploaded_packages].
      rewrite <- app_assoc.
      split; [reflexivity|]. split; [reflexivity|].
      split; [by constructor|].
      destruct (_.1) as [[]|e]; cbn [redirect_last] in *.
      * by constructor.
      * destruct Hrl as [Hrl | (evs0 & p & r & -> & H0 & Hr & ->)].
        -- left. by constructor.
        -- right. exists (PackageIsUploaded package false :: evs0), p, r.
           repeat split; try done. by constructor.
  - unfold ret. apply Htail.
Qed.

Lemma upload_loop_inv (uploads : list string) (st : State World) :
  inv st
    (upload_loop C D T upload_settings signatures repository_url uploads st).
Proof.
  revert st; induction uploads as [|filename rest IH]; intros st; simpl.
  - exists []. unfold ret. simpl. rewrite !app_nil_r.
    repeat split; constructor.
  - destruct (upload_one_inv filename st) as (evs & Ht & Hu & Hev & Hrl).
    unfold bind.
    destruct (upload_one _ _ _ _ _ _ _ _) as [[[]|e] st1]; simpl in *.
    + destruct (IH st1) as (evs' & Ht' & Hu' & Hev' & Hrl').
      exists (evs ++ evs')%list.
      rewrite Ht', Ht, Hu', Hu, omap_app, !app_assoc.
      repeat split; [by apply Forall_app|].
      destruct (_.1) as [[]|e]; simpl in *.
      * by apply Forall_app.
      * destruct Hrl' as [Hrl' | (evs0 & p & r & -> & H0 & Hr & ->)].
        -- left. by apply Forall_app.
        -- right. exists (evs ++ evs0)%list, p, r.
           rewrite app_assoc. repeat split; try done. by apply Forall_app.
    + exists evs. by repeat split.
Qed.

End Loop.

(** ** A whole run of [upload] *)

Section Run.

Context {World : Type}.
Variable C : Collaborators World.
Variables D T : string.
Variable upload_settings : Settings.

(** The run in closed form: the preamble, the loop, and on normal
    completion the report and [close]. *)
Lemma upload_run (dists : list string) (st0 : State World) :
  let found := _find_dists C dists (world st0) in
  let st_a := mkState (world st0) (trace st0 ++ preamble upload_settings) [] in
  let looped :=
    upload_loop C D T upload_settings (signatures_of found)
                (repository upload_settings) (uploads_of found) st_a in
  upload C D T upload_settings dists st0 =
  match check_repository_url C upload_settings with
  | Some e => (Raise e, st0)
  | None =>
      match looped with
      | (Raise e, st_b) => (Raise e, st_b)
      | (Return _, st_b) =>
          let '(urls, w) :=
            release_urls C (uploaded_packages st_b) (world st_b) in
          (Return tt,
           mkState w
             (trace st_b
              ++ ReleaseUrls (uploaded_packages st_b) urls
                 :: view_lines urls ++ [Close])
             (uploaded_packages st_b))
      end
  end.
Proof.
  intros found st_a looped. unfold upload.
  fold found. unfold bind at 1.
  destruct (check_repository_url C upload_settings) as [e|];
    [reflexivity|].
  unfold ret at 1. unfold bind at 1, print at 1, emit at 1.
  unfold bind at 1, emit at 1. unfold bind at 1. unfold bind at 1.
  cbn [world trace uploaded_packages].
  rewrite <- app_assoc.
  change ([Print ("Uploading distributions to " ++ repository upload_settings)]
          ++ [CreateRepository])%list with (preamble upload_settings).
  fold st_a. fold looped.
  destruct looped as [[[]|e] st_b]; [|reflexivity].
  unfold bind at 1, call.
  destruct (release_urls C (uploaded_packages st_b) (world st_b))
    as [urls w].
  unfold bind at 1.
  destruct urls as [|u urls].
  - unfold ret, emit. cbn [world trace uploaded_packages view_lines].
    by rewrite <- app_assoc.
  - unfold bind at 1, print, emit. rewrite print_all_run.
    cbn [world trace uploaded_packages view_lines].
    rewrite <- !app_assoc. reflexivity.
Qed.

(** The shape of every run from an initial state. *)
Lemma upload_shape (dists : list string) (w : World) :
  let out := upload C D T upload_settings dists (initial w) in
  let sigs := signatures_of (_find_dists C dists w) in
  (exists e,
      check_repository_url C upload_settings = Some e /\
      out = (Raise e, initial w)) \/
  (check_repository_url C upload_settings = None /\
   exists evs,
     Forall (loop_event upload_settings sigs) evs /\
     uploaded_packages out.2 = omap (accepted D T upload_settings) evs /\
     ((exists e,
          out.1 = Raise e /\
          trace out.2 = (preamble upload_settings ++ evs)%list /\
          redirect_last (repository upload_settings) evs (Raise e)) \/
      (exists urls,
          out.1 = Return tt /\
          trace out.2 =
            (preamble upload_settings ++ evs
             ++ ReleaseUrls (uploaded_packages out.2) urls
                :: view_lines urls ++ [Close])%list /\
          redirect_free evs))).
Proof.
  intros out sigs. subst out. rewrite upload_run.
  cbn [world trace initial app].
  destruct (check_repository_url C upload_settings) as [e|].
  { left. by exists e. }
  right. split; [reflexivity|].
  pose proof (upload_loop_inv C D T upload_settings sigs
                (repository upload_settings)
                (uploads_of (_find_dists C dists w))
                (mkState w (preamble upload_settings) []))
    as (evs & Ht & Hu & Hev & Hrl).
  fold sigs.
  destruct (upload_loop _ _ _ _ _ _ _ _) as [[[]|e] st_b];
    cbn [fst snd trace uploaded_packages app] in *.
  - destruct (release_urls C (uploaded_packages st_b) (world st_b))
      as [urls w'].
    exists evs. cbn [fst snd trace uploaded_packages].
    repeat split; [exact Hev | exact Hu |].
    right. exists urls. rewrite Ht, <- app_assoc. by repeat split.
  - exists evs. repeat split; [exact Hev | exact Hu |].
    left. exists e. by repeat split.
Qed.

Local Abbreviation run := (upload C D T upload_settings).

Lemma preamble_events (ev : event) :
  In ev (preamble upload_settings) ->
  (exists line, ev = Print line) \/ ev = CreateRepository.
Proof. intros [<- | [<- | []]]; eauto. Qed.

Lemma view_lines_events (urls : list string) (ev : event) :
  In ev (view_lines urls) -> exists line, ev = Print line.
Proof.
  destruct urls as [|u urls]; [intros []|].
  intros [<- | H]; [eauto|]. apply in_map_iff in H as (l & <- & _). eauto.
Qed.

Lemma loop_events_in (sigs : gmap string string) (evs : list event)
    (ev : event) :
  Forall (loop_event upload_settings sigs) evs -> In ev evs ->
  loop_event upload_settings sigs ev.
Proof. intros H Hin. by apply (proj1 (List.Forall_forall _ _) H). Qed.

Lemma redirect_free_in (evs : list event) (ev : event) :
  redirect_free evs -> In ev evs -> redirected ev = false.
Proof. intros H Hin. by apply (proj1 (List.Forall_forall _ _) H). Qed.

(** Where an element of a list ending in [x] can sit. *)
Lemma snoc_eq_split {A} (l0 before after : list A) (x y : A) :
  (l0 ++ [x] = before ++ y :: after)%list ->
  (after = [] /\ x = y) \/ In y l0.
Proof.
  destruct after as [|z after _] using rev_ind; intros H.
  - apply app_inj_tail in H as [_ H]. by left.
  - right. change (before ++ y :: after ++ [z])%list
      with (before ++ (y :: after) ++ [z])%list in H.
    rewrite app_assoc in H. apply app_inj_tail in H as [-> _].
    apply in_or_app. right. by left.
Qed.

(** C1, as stated, fails: a batch that aborts on a failed upload never
    closes the repository. *)
Lemma close_skipped_on_abort_counterexample :
  (upload (mock (fun _ => false) (fun _ => server_error))
          DEFAULT_REPOSITORY TEST_REPOSITORY default_settings
          ["dist/pkg-1.0.tar.gz"] (initial 0%nat)).1
  = Raise (HTTPError server_error) /\
  ~ In Close
      (trace (upload (mock (fun _ => false) (fun _ => server_error))
                     DEFAULT_REPOSITORY TEST_REPOSITORY default_settings
                     ["dist/pkg-1.0.tar.gz"] (initial 0%nat)).2).
Proof.
  split; [by vm_compute|]. vm_compute. intros H.
  repeat (destruct H as [H | H]; [discriminate H|]). exact H.
Qed.

(** C1, amended: when the run completes without a raise, [close] is its
    last action and happens once; when the run raises, [close] does not
    happen. *)
Theorem close_iff_completed (dists : list string) (w : World) :
  ((run dists (initial w)).1 = Return tt ->
   exists evs,
     trace (run dists (initial w)).2 = (evs ++ [Close])%list /\
     ~ In Close evs) /\
  (forall e,
      (run dists (initial w)).1 = Raise e ->
      ~ In Close (trace (run dists (initial w)).2)).
Proof.
  pose proof (upload_shape dists w) as H. cbv zeta in H.
  destruct H as [(e & _ & ->) | (_ & evs & Hev & _ & H)].
  { split; [discriminate | intros _ _ []]. }
  destruct H as [(e & -> & -> & _) | (urls & -> & -> & _)].
  - split; [discriminate|]. intros _ _ Hin.
    apply in_app_or in Hin as [Hin | Hin].
    + by apply preamble_events in Hin as [[l Hl] | Hl].
    + exact (loop_events_in _ _ _ Hev Hin).
  - split; [|discriminate]. intros _.
    eexists. split.
    { rewrite !app_assoc, app_comm_cons, !app_assoc. reflexivity. }
    intros Hin. rewrite <- !app_assoc in Hin.
    apply in_app_or in Hin as [Hin | Hin].
    { by apply preamble_events in Hin as [[l Hl] | Hl]. }
    apply in_app_or in Hin as [Hin | Hin].
    { exact (loop_events_in _ _ _ Hev Hin). }
    destruct Hin as [Hin | Hin]; [discriminate Hin|].
    by apply view_lines_events in Hin as [l Hl].
Qed.

Lemma preamble_redirect_free : redirect_free (preamble upload_settings).
Proof. by repeat constructor. Qed.

(** C3: whenever an upload response is a redirect, the batch aborts with
    [RedirectDetected] carrying the repository URL and the redirect
    target, whatever the status code, the skip-existing flag and the
    messages; that upload is the last action of the run, so the response
    is neither classified nor validated and no later package is
    attempted. *)
Theorem redirect_aborts_batch (dists : list string) (w : World)
    (before after : list event) (package : PackageFile)
    (response : Response) (target : string) :
  trace (run dists (initial w)).2
    = (before ++ Upload package response :: after)%list ->
  is_redirect response = true ->
  headers response !! "location" = Some target ->
  (run dists (initial w)).1
    = Raise (RedirectDetected (repository upload_settings) target) /\
  after = [].
Proof.
  intros Htrace Hred Hloc.
  assert (Hin : In (Upload package response)
                   (trace (run dists (initial w)).2)).
  { rewrite Htrace. apply in_or_app. right. by left. }
  assert (Hnot : forall evs, redirect_free evs ->
                             ~ In (Upload package response) evs).
  { intros evs Hf Hi. apply (redirect_free_in _ _ Hf) in Hi.
    cbn [redirected] in Hi. congruence. }
  pose proof (upload_shape dists w) as H. cbv zeta in H.
  destruct H as [(e & _ & Hout) | (_ & evs & Hev & _ & H)].
  { rewrite Hout in Hin. destruct Hin. }
  destruct H as [(e & He & Ht & Hrl) | (urls & _ & Ht & Hrf)].
  - rewrite He. cbn [redirect_last] in Hrl.
    destruct Hrl as [Hrf | (evs0 & p & r & -> & Hrf & Hr & ->)].
    + exfalso. rewrite Ht in Hin.
      apply in_app_or in Hin as [Hin | Hin].
      * exact (Hnot _ preamble_redirect_free Hin).
      * exact (Hnot _ Hrf Hin).
    + rewrite Ht, app_assoc in Htrace.
      apply snoc_eq_split in Htrace as [[-> Heq] | Hin'].
      * injection Heq as -> ->. split; [|reflexivity].
        unfold redirect_exn. by rewrite Hloc.
      * exfalso. apply in_app_or in Hin' as [Hin' | Hin'].
        -- exact (Hnot _ preamble_redirect_free Hin').
        -- exact (Hnot _ Hrf Hin').
  - exfalso. rewrite Ht in Hin.
    apply in_app_or in Hin as [Hin | Hin].
    { exact (Hnot _ preamble_redirect_free Hin). }
    apply in_app_or in Hin as [Hin | Hin].
    { exact (Hnot _ Hrf Hin). }
    destruct Hin as [Hin | Hin]; [discriminate Hin|].
    apply in_app_or in Hin as [Hin | [Hin | []]]; [|discriminate Hin].
    by apply view_lines_events in Hin as [l Hl].
Qed.

Lemma not_accepted_all (evs : list event) :
  (forall ev, In ev evs -> accepted D T upload_settings ev = None) ->
  omap (accepted D T upload_settings) evs = [].
Proof.
  induction evs as [|ev evs IH]; intros H; [reflexivity|].
  rewrite omap_cons_None; [|apply H; by left].
  apply IH. intros ev' Hin. apply H. by right.
Qed.

Lemma preamble_not_accepted :
  omap (accepted D T upload_settings) (preamble upload_settings) = [].
Proof. reflexivity. Qed.

Lemma report_not_accepted (packages : list PackageFile)
    (urls : list string) :
  omap (accepted D T upload_settings)
       (ReleaseUrls packages urls :: view_lines urls ++ [Close]) = [].
Proof.
  apply not_accepted_all. intros ev [<- | Hin]; [reflexivity|].
  apply in_app_or in Hin as [Hin | [<- | []]]; [|reflexivity].
  by apply view_lines_events in Hin as [l ->].
Qed.

(** When every upload is answered by a plain 409 and skip-existing is on,
    the loop completes and accumulates nothing. *)
Lemma conflicts_loop (signatures : gmap string string)
    (repository_url : string) :
  skip_existing upload_settings = true ->
  (forall p w',
      status_code (repository_upload C p w').1 = 409 /\
      is_redirect (repository_upload C p w').1 = false) ->
  forall uploads st,
  exists st',
    upload_loop C D T upload_settings signatures repository_url uploads st
      = (Return tt, st') /\
    uploaded_packages st' = uploaded_packages st.
Proof.
  intros Hse Hresp uploads.
  induction uploads as [|f rest IH]; intros st; [by exists st|].
  cbn [upload_loop]. unfold bind at 1, upload_one. rewrite Hse.
  unfold bind at 1, call at 1.
  destruct (package_is_uploaded C _ (world st)) as [[] w1].
  - unfold print, emit. cbn [world trace uploaded_packages].
    match goal with |- context [upload_loop _ _ _ _ _ _ rest ?s] =>
      destruct (IH s) as (st' & -> & Hu) end.
    by exists st'.
  - unfold attempt. unfold bind at 1.
    match goal with |- context [attach_signature _ _ _ ?p ?s] =>
      destruct (attach_signature_run C D T upload_settings signatures p s
                  eq_refl)
        as (pkg' & w2 & evs & Hrun & _)
    end.
    rewrite Hrun. unfold bind at 1, call at 1.
    cbn [world trace uploaded_packages].
    specialize (Hresp pkg' w2).
    destruct (repository_upload C pkg' w2) as [resp w3].
    cbn [fst] in Hresp. destruct Hresp as [Hst Hred]. rewrite Hred.
    assert (Hskip : skip_upload resp true pkg' = true)
      by (unfold skip_upload; by rewrite Hst).
    rewrite Hse, Hskip. unfold print, emit.
    cbn [world trace uploaded_packages].
    match goal with |- context [upload_loop _ _ _ _ _ _ rest ?s] =>
      destruct (IH s) as (st' & -> & Hu) end.
    by exists st'.
Qed.

(** C5: at the end of every run, the accumulated packages are exactly the
    packages of the upload attempts that passed the redirect guard, were
    not classified as a skip and passed the status validator, in the
    order of the attempts; a package skipped by the pre-check is not
    attempted and so not included.  In particular, when the uploads are
    all answered by a plain 409 under skip-existing, the run raises
    nothing and accumulates nothing. *)
Theorem uploaded_are_the_accepted (dists : list string) (w : World) :
  uploaded_packages (run dists (initial w)).2
    = omap (accepted D T upload_settings)
           (trace (run dists (initial w)).2) /\
  (skip_existing upload_settings = true ->
   check_repository_url C upload_settings = None ->
   (forall p w',
       status_code (repository_upload C p w').1 = 409 /\
       is_redirect (repository_upload C p w').1 = false) ->
   (run dists (initial w)).1 = Return tt /\
   uploaded_packages (run dists (initial w)).2 = []).
Proof.
  split.
  - pose proof (upload_shape dists w) as H. cbv zeta in H.
    destruct H as [(e & _ & ->) | (_ & evs & _ & -> & H)]; [reflexivity|].
    destruct H as [(e & _ & -> & _) | (urls & _ & -> & _)].
    + by rewrite omap_app, preamble_not_accepted.
    + rewrite !omap_app, preamble_not_accepted, report_not_accepted.
      by rewrite app_nil_r.
  - intros Hse Hcheck Hresp. rewrite upload_run, Hcheck.
    cbn [world trace initial app].
    match goal with |- context [upload_loop _ _ _ _ ?sg ?u ?l ?s] =>
      destruct (conflicts_loop sg u Hse Hresp l s) as (st' & -> & Hu) end.
    destruct (release_urls C _ _) as [urls w'].
    cbn [fst snd uploaded_packages] in *. by split.
Qed.

(** C6: under skip-existing, the pre-check is the first action for a
    package, and when it answers true the skip is printed and the loop
    goes on with the next package, no upload being made for this one;
    without skip-existing the pre-check is never made. *)
Theorem precheck_before_upload :
  (forall signatures repository_url f rest (st : State World) w',
      skip_existing upload_settings = true ->
      package_is_uploaded C (from_filename f (comment upload_settings))
                          (world st) = (true, w') ->
      upload_loop C D T upload_settings signatures repository_url
                  (f :: rest) st
      = upload_loop C D T upload_settings signatures repository_url rest
          (mkState w'
             (trace st
              ++ [PackageIsUploaded
                    (from_filename f (comment upload_settings)) true;
                  Print (skip_message
                           (from_filename f (comment upload_settings)))])
             (uploaded_packages st))) /\
  (forall signatures repository_url f (st : State World),
      skip_existing upload_settings = true ->
      exists answer evs,
        trace (upload_one C D T upload_settings signatures repository_url
                          f st).2
        = (trace st
           ++ PackageIsUploaded (from_filename f (comment upload_settings))
                                answer :: evs)%list) /\
  (forall dists w package answer,
      skip_existing upload_settings = false ->
      ~ In (PackageIsUploaded package answer)
           (trace (run dists (initial w)).2)).
Proof.
  split; [|split].
  - intros signatures repository_url f rest st w' Hse Hk.
    cbn [upload_loop]. unfold bind at 1, upload_one. rewrite Hse.
    unfold bind at 1, call at 1. rewrite Hk.
    unfold print, emit. cbn [world trace uploaded_packages].
    by rewrite <- app_assoc.
  - intros signatures repository_url f st Hse.
    unfold upload_one. rewrite Hse. unfold bind at 1, call at 1.
    destruct (package_is_uploaded C _ (world st)) as [[] w1].
    + exists true. eexists. unfold print, emit. cbn [snd trace].
      by rewrite <- app_assoc.
    + exists false.
      match goal with |- context [attempt _ _ _ _ ?sg ?u ?p ?s] =>
        destruct (attempt_inv C D T upload_settings sg u p s eq_refl)
          as (evs & -> & _)
      end.
      exists evs. cbn [trace]. by rewrite <- app_assoc.
  - intros dists w package answer Hse Hin.
    assert (Hloop : forall sigs evs,
               Forall (loop_event upload_settings sigs) evs ->
               ~ In (PackageIsUploaded package answer) evs).
    { intros sigs evs Hev Hi. apply (loop_events_in _ _ _ Hev) in Hi.
      cbn [loop_event] in Hi. congruence. }
    pose proof (upload_shape dists w) as H. cbv zeta in H.
    destruct H as [(e & _ & Hout) | (_ & evs & Hev & _ & H)].
    { rewrite Hout in Hin. destruct Hin. }
    destruct H as [(e & _ & Ht & _) | (urls & _ & Ht & _)];
      rewrite Ht in Hin; apply in_app_or in Hin as [Hin | Hin];
      try (by apply preamble_events in Hin as [[l Hl] | Hl]).
    + exact (Hloop _ _ Hev Hin).
    + apply in_app_or in Hin as [Hin | Hin];
        [exact (Hloop _ _ Hev Hin)|].
      destruct Hin as [Hin | Hin]; [discriminate Hin|].
      apply in_app_or in Hin as [Hin | [Hin | []]]; [|discriminate Hin].
      by apply view_lines_events in Hin as [l Hl].
Qed.

Lemma loop_event_signature_rule (sigs : gmap string string) (ev : event) :
  loop_event upload_settings sigs ev ->
  signature_rule upload_settings sigs ev.
Proof. destruct ev; cbn; tauto. Qed.

(** C8: a pre-supplied signature is attached whenever the signed basename
    is a key of the signature map, without signing and whatever the sign
    option; otherwise, with the sign option, the package is signed and the
    output attached; otherwise the package is left unsigned.  Over a whole
    run, signing happens only for a package without pre-supplied signature
    and with the sign option, and a package is uploaded unsigned exactly
    when neither applies. *)
Theorem signature_precedence :
  (forall signatures package (st : State World) path,
      signatures !! signed_basefilename package = Some path ->
      attach_signature C upload_settings signatures package st
      = (Return (with_gpg_signature package (signed_basefilename package)
                   (read_file C path (world st))),
         mkState (world st)
           (trace st
            ++ [AddGpgSignature path (signed_basefilename package)])
           (uploaded_packages st))) /\
  (forall signatures package (st : State World),
      signatures !! signed_basefilename package = None ->
      sign upload_settings = true ->
      attach_signature C upload_settings signatures package st
      = (Return (with_gpg_signature package (signed_basefilename package)
                   (gpg_sign C (sign_with upload_settings)
                             (identity upload_settings) (filename package)
                             (world st)).1),
         mkState
           (gpg_sign C (sign_with upload_settings)
                     (identity upload_settings) (filename package)
                     (world st)).2
           (trace st
            ++ [Sign package (sign_with upload_settings)
                     (identity upload_settings)])
           (uploaded_packages st))) /\
  (forall signatures package (st : State World),
      signatures !! signed_basefilename package = None ->
      sign upload_settings = false ->
      attach_signature C upload_settings signatures package st
      = (Return package, st)) /\
  (forall dists w,
      Forall (signature_rule upload_settings
                (signatures_of (_find_dists C dists w)))
             (trace (run dists (initial w)).2)).
Proof.
  split; [|split; [|split]].
  - intros signatures package st path Hk.
    unfold attach_signature. by rewrite Hk.
  - intros signatures package st Hk Hs.
    unfold attach_signature. rewrite Hk, Hs.
    unfold package_sign, bind, call, ret.
    by destruct (gpg_sign C _ _ _ _).
  - intros signatures package st Hk Hs.
    unfold attach_signature. by rewrite Hk, Hs.
  - intros dists w. apply List.Forall_forall. intros ev Hin.
    pose proof (upload_shape dists w) as H. cbv zeta in H.
    destruct H as [(e & _ & Hout) | (_ & evs & Hev & _ & H)].
    { rewrite Hout in Hin. destruct Hin. }
    destruct H as [(e & _ & Ht & _) | (urls & _ & Ht & _)];
      rewrite Ht in Hin; apply in_app_or in Hin as [Hin | Hin];
      try (by apply preamble_events in Hin as [[l ->] | ->]).
    + apply loop_event_signature_rule. exact (loop_events_in _ _ _ Hev Hin).
    + apply in_app_or in Hin as [Hin | Hin].
      { apply loop_event_signature_rule.
        exact (loop_events_in _ _ _ Hev Hin). }
      destruct Hin as [<- | Hin]; [exact I|].
      apply in_app_or in Hin as [Hin | [<- | []]]; [|exact I].
      by apply view_lines_events in Hin as [l ->].
Qed.

(** C9, amended: when the uploads sequence is empty, neither the
    pre-check nor an upload is made; a run that passes the repository URL
    check asks for the release URLs once, with no package, prints them if
    any, and closes. *)
Theorem empty_uploads_run (dists : list string) (w : World) :
  uploads_of (_find_dists C dists w) = [] ->
  (forall package answer,
      ~ In (PackageIsUploaded package answer)
           (trace (run dists (initial w)).2)) /\
  (forall package response,
      ~ In (Upload package response) (trace (run dists (initial w)).2)) /\
  (check_repository_url C upload_settings = None ->
   run dists (initial w)
   = (Return tt,
      mkState (release_urls C [] w).2
        (preamble upload_settings
         ++ ReleaseUrls [] (release_urls C [] w).1
            :: view_lines (release_urls C [] w).1 ++ [Close])
        [])).
Proof.
  intros Hempty.
  assert (Hrun := upload_run dists (initial w)).
  cbv zeta in Hrun. cbn [world trace initial app] in Hrun.
  rewrite Hempty in Hrun. cbn [upload_loop] in Hrun. unfold ret in Hrun.
  cbn [world trace uploaded_packages] in Hrun.
  destruct (check_repository_url C upload_settings) as [e|].
  { rewrite Hrun. repeat split; try (intros ? ? []). discriminate. }
  destruct (release_urls C [] w) as [urls w'].
  rewrite Hrun. cbn [fst snd trace].
  assert (Hnone : forall ev,
             In ev (preamble upload_settings
                    ++ ReleaseUrls [] urls :: view_lines urls ++ [Close]) ->
             (forall p a, ev <> PackageIsUploaded p a) /\
             (forall p r, ev <> Upload p r)).
  { intros ev Hin. apply in_app_or in Hin as [Hin | Hin].
    { by apply preamble_events in Hin as [[l ->] | ->]. }
    destruct Hin as [<- | Hin]; [done|].
    apply in_app_or in Hin as [Hin | [<- | []]]; [|done].
    by apply view_lines_events in Hin as [l ->]. }
  repeat split.
  - intros p a Hin. by apply (proj1 (Hnone _ Hin) p a).
  - intros p r Hin. by apply (proj2 (Hnone _ Hin) p r).
Qed.

End Run.

(** ** The partitioner *)

Section Partitioner.
Import PyStrFacts.

Lemma is_signature_spec (path : string) :
  is_signature path = true <-> ends_with_asc path.
Proof. apply endswith_spec. Qed.

Lemma is_signature_false (path : string) :
  is_signature path = false <-> ~ ends_with_asc path.
Proof.
  rewrite <- is_signature_spec. destruct (is_signature path); split;
    congruence.
Qed.

(** The map built by the comprehension, over any starting map: a key has
    the last signature path with that basename. *)
Lemma signatures_fold_lookup (dists : list string)
    (m : gmap string string) (k v : string) :
  foldl (fun m d => <[PyStr.basename d := d]> m) m
        (List.filter is_signature dists) !! k = Some v <->
  (exists before after,
      dists = (before ++ v :: after)%list /\
      is_signature v = true /\
      PyStr.basename v = k /\
      forall q, In q after -> is_signature q = true ->
                PyStr.basename q <> k) \/
  (m !! k = Some v /\
   forall q, In q dists -> is_signature q = true -> PyStr.basename q <> k).
Proof.
  revert m; induction dists as [|d ds IH]; intros m.
  - cbn [List.filter foldl]. split.
    + intros H. right. split; [exact H | intros q []].
    + intros [(b & a & Heq & _) | [H _]]; [|exact H].
      by destruct b.
  - cbn [List.filter]. destruct (is_signature d) eqn:Hd.
    + cbn [foldl]. rewrite IH. split.
      * intros [(b & a & -> & Hv & Hk & Hl) | [Hm Hall]].
        -- left. by exists (d :: b), a.
        -- destruct (decide (PyStr.basename d = k)) as [Hdk | Hdk].
           ++ rewrite <- Hdk, lookup_insert_eq in Hm.
              assert (d = v) as -> by congruence.
              left. by exists [], ds.
           ++ rewrite lookup_insert_ne in Hm by exact Hdk.
              right. split; [exact Hm|].
              intros q [<- | Hin] Hq; [exact Hdk | by apply Hall].
      * intros [(b & a & Heq & Hv & Hk & Hl) | [Hm Hall]].
        -- destruct b as [|b0 b]; injection Heq as -> ->.
           ++ right. split; [|exact Hl].
              rewrite <- Hk. apply lookup_insert_eq.
           ++ left. by exists b, a.
        -- right. split.
           ++ rewrite lookup_insert_ne; [exact Hm|].
              apply Hall; [by left | exact Hd].
           ++ intros q Hin. apply Hall. by right.
    + rewrite IH. split.
      * intros [(b & a & -> & Hv & Hk & Hl) | [Hm Hall]].
        -- left. by exists (d :: b), a.
        -- right. split; [exact Hm|].
           intros q [<- | Hin] Hq; [congruence | by apply Hall].
      * intros [(b & a & Heq & Hv & Hk & Hl) | [Hm Hall]].
        -- destruct b as [|b0 b]; injection Heq as -> ->; [congruence|].
           left. by exists b, a.
        -- right. split; [exact Hm|].
           intros q Hin. apply Hall. by right.
Qed.

Lemma signatures_of_lookup (dists : list string) (k v : string) :
  signatures_of dists !! k = Some v <->
  exists before after,
    dists = (before ++ v :: after)%list /\
    is_signature v = true /\
    PyStr.basename v = k /\
    forall q, In q after -> is_signature q = true -> PyStr.basename q <> k.
Proof.
  unfold signatures_of. rewrite signatures_fold_lookup. split.
  - intros [H | [H _]]; [exact H|]. by rewrite lookup_empty in H.
  - intros H. by left.
Qed.

Lemma uploads_of_app (l1 l2 : list string) :
  uploads_of (l1 ++ l2) = (uploads_of l1 ++ uploads_of l2)%list.
Proof. apply List.filter_app. Qed.

Lemma uploads_of_In (dists : list string) (path : string) :
  In path (uploads_of dists) <-> In path dists /\ is_signature path = false.
Proof.
  unfold uploads_of. rewrite List.filter_In.
  by rewrite negb_true_iff.
Qed.

(** C4, as stated, fails: of two signature files with the same basename
    only the later one is in the signature map. *)
Lemma shadowed_signature_counterexample :
  In "a/x.asc" shadowed_dists /\
  ends_with_asc "a/x.asc" /\
  forall key, signatures_of shadowed_dists !! key <> Some "a/x.asc".
Proof.
  split; [by left|]. split; [by exists "a/x"|].
  intros key H.
  apply signatures_of_lookup in H as (b & a & Heq & _ & Hk & Hl).
  destruct b as [|b0 [|b1 [|b2 b]]]; try discriminate Heq.
  injection Heq as <-. apply (Hl "b/x.asc"); [by left | reflexivity|].
  by rewrite <- Hk.
Qed.

(** C4, amended: a path is the signature-map entry of its basename
    exactly when it ends with [.asc] and no later path ending with [.asc]
    has the same basename; every entry is keyed by the basename of its
    path; the uploads sequence is the input with the paths ending with
    [.asc] left out, order kept; and no path of the uploads sequence is a
    value of the signature map. *)
Theorem partition_spec (dists : list string) (path : string) :
  (signatures_of dists !! PyStr.basename path = Some path <->
   exists before after,
     dists = (before ++ path :: after)%list /\
     ends_with_asc path /\
     forall q, In q after -> ends_with_asc q ->
               PyStr.basename q <> PyStr.basename path) /\
  (forall key,
      signatures_of dists !! key = Some path ->
      key = PyStr.basename path /\ In path dists /\ ends_with_asc path) /\
  (forall l1 l2,
      uploads_of (l1 ++ l2) = (uploads_of l1 ++ uploads_of l2)%list) /\
  (ends_with_asc path -> uploads_of [path] = []) /\
  (~ ends_with_asc path -> uploads_of [path] = [path]) /\
  (In path (uploads_of dists) <-> In path dists /\ ~ ends_with_asc path) /\
  (In path (uploads_of dists) ->
   forall key, signatures_of dists !! key <> Some path).
Proof.
  repeat split.
  - intros H. apply signatures_of_lookup in H as (b & a & -> & Hv & _ & Hl).
    exists b, a. repeat split; [by apply is_signature_spec|].
    intros q Hin Hq. apply Hl; [exact Hin | by apply is_signature_spec].
  - intros (b & a & -> & Hv & Hl). apply signatures_of_lookup.
    exists b, a. repeat split; [by apply is_signature_spec|].
    intros q Hin Hq. apply Hl; [exact Hin | by apply is_signature_spec].
  - apply signatures_of_lookup in H as (b & a & -> & _ & Hk & _). done.
  - apply signatures_of_lookup in H as (b & a & -> & _ & _ & _).
    apply in_or_app. right. by left.
  - apply signatures_of_lookup in H as (b & a & -> & Hv & _ & _).
    by apply is_signature_spec.
  - apply uploads_of_app.
  - intros H. apply is_signature_spec in H.
    unfold uploads_of. cbn [List.filter]. by rewrite H.
  - intros H. apply is_signature_false in H.
    unfold uploads_of. cbn [List.filter]. by rewrite H.
  - by apply uploads_of_In in H as [H _].
  - apply uploads_of_In in H as [_ H]. by apply is_signature_false.
  - intros [H1 H2]. apply uploads_of_In. split; [exact H1|].
    by apply is_signature_false.
  - intros Hin key H. apply uploads_of_In in Hin as [_ Hin].
    apply signatures_of_lookup in H as (b & a & _ & Hv & _). congruence.
Qed.

End Partitioner.

(** ** Concrete runs *)

(** C9, as stated, fails: with no upload at all the release URLs are still
    asked for. *)
Lemma release_urls_on_empty_counterexample :
  uploads_of (_find_dists (mock (fun _ => false) (fun _ => ok_response))
                          [] 0%nat) = [] /\
  In (ReleaseUrls [] [])
     (trace (upload (mock (fun _ => false) (fun _ => ok_response))
                    DEFAULT_REPOSITORY TEST_REPOSITORY default_settings
                    [] (initial 0%nat)).2).
Proof. split; [reflexivity|]. vm_compute. right; right; left; reflexivity. Qed.

Lemma close_iff_completed_witness :
  exists evs,
    trace (upload (mock (fun _ => false) (fun _ => ok_response))
                  DEFAULT_REPOSITORY TEST_REPOSITORY default_settings
                  scenario_dists (initial 0%nat)).2
    = (evs ++ [Close])%list /\
    ~ In Close evs.
Proof.
  apply (proj1 (close_iff_completed
                  (mock (fun _ => false) (fun _ => ok_response))
                  DEFAULT_REPOSITORY TEST_REPOSITORY default_settings
                  scenario_dists 0%nat)).
  vm_compute. reflexivity.
Defined.

Lemma skip_upload_iff_witness :
  skip_upload warehouse_duplicate true pkg_1_0 = true.
Proof.
  apply (proj2 (skip_upload_iff warehouse_duplicate true pkg_1_0)).
  split; [reflexivity|]. right; left. split; [reflexivity|].
  exists "File already exists", ". See https://pypi.org/help/".
  split; [right; left; reflexivity | reflexivity].
Defined.

Lemma redirect_aborts_batch_witness :
  (upload (mock (fun _ => false) (fun _ => mirror_redirect))
          DEFAULT_REPOSITORY TEST_REPOSITORY skipping_settings
          ["dist/pkg-1.0.tar.gz"; "dist/other-2.0.tar.gz"] (initial 0%nat)).1
  = Raise (RedirectDetected (repository skipping_settings)
                            "https://mirror.example/x") /\
  @nil event = [].
Proof.
  apply (redirect_aborts_batch
           (mock (fun _ => false) (fun _ => mirror_redirect))
           DEFAULT_REPOSITORY TEST_REPOSITORY skipping_settings
           ["dist/pkg-1.0.tar.gz"; "dist/other-2.0.tar.gz"] 0%nat
           (preamble skipping_settings
            ++ [PackageIsUploaded pkg_1_0 false])
           [] pkg_1_0 mirror_redirect "https://mirror.example/x").
  - vm_compute. reflexivity.
  - reflexivity.
  - vm_compute. reflexivity.
Defined.

Lemma partition_spec_witness :
  signatures_of shadowed_dists !! PyStr.basename "b/x.asc" = Some "b/x.asc".
Proof.
  apply (proj2 (proj1 (partition_spec shadowed_dists "b/x.asc"))).
  exists ["a/x.asc"], []. split; [reflexivity|].
  split; [by exists "b/x" | intros q []].
Defined.

Lemma uploaded_are_the_accepted_witness :
  (upload (mock (fun _ => false) (fun _ => conflict_response))
          DEFAULT_REPOSITORY TEST_REPOSITORY skipping_settings
          ["pkg-1.0.tar.gz"] (initial 0%nat)).1 = Return tt /\
  uploaded_packages
    (upload (mock (fun _ => false) (fun _ => conflict_response))
            DEFAULT_REPOSITORY TEST_REPOSITORY skipping_settings
            ["pkg-1.0.tar.gz"] (initial 0%nat)).2 = [].
Proof.
  apply (proj2 (uploaded_are_the_accepted
                  (mock (fun _ => false) (fun _ => conflict_response))
                  DEFAULT_REPOSITORY TEST_REPOSITORY skipping_settings
                  ["pkg-1.0.tar.gz"] 0%nat)).
  - reflexivity.
  - reflexivity.
  - intros p w'. split; reflexivity.
Defined.

Lemma precheck_before_upload_witness :
  upload_loop (mock (fun _ => true) (fun _ => ok_response))
              DEFAULT_REPOSITORY TEST_REPOSITORY skipping_settings ∅
              "https://upload.pypi.org/legacy/"
              ["dist/pkg-1.0.tar.gz"; "dist/other-2.0.tar.gz"]
              (initial 0%nat)
  = upload_loop (mock (fun _ => true) (fun _ => ok_response))
                DEFAULT_REPOSITORY TEST_REPOSITORY skipping_settings ∅
                "https://upload.pypi.org/legacy/"
                ["dist/other-2.0.tar.gz"]
                (mkState 1%nat
                   [PackageIsUploaded pkg_1_0 true;
                    Print (skip_message pkg_1_0)]
                   []).
Proof.
  apply (proj1 (precheck_before_upload
                  (mock (fun _ => true) (fun _ => ok_response))
                  DEFAULT_REPOSITORY TEST_REPOSITORY skipping_settings)
               ∅ "https://upload.pypi.org/legacy/" "dist/pkg-1.0.tar.gz"
               ["dist/other-2.0.tar.gz"] (initial 0%nat) 1%nat).
  - reflexivity.
  - reflexivity.
Defined.

Lemma check_status_code_rules_witness :
  (exists msg,
      snd (check_status_code DEFAULT_REPOSITORY TEST_REPOSITORY
                             gone_legacy false)
      = Raise (UploadToDeprecatedPyPIDetected msg) /\
      mentions msg DEFAULT_REPOSITORY /\ mentions msg TEST_REPOSITORY) /\
  (exists msg,
      snd (check_status_code DEFAULT_REPOSITORY TEST_REPOSITORY
                             not_allowed_lookalike false)
      = Raise (InvalidPyPIUploadURL msg) /\
      mentions msg DEFAULT_REPOSITORY /\ mentions msg TEST_REPOSITORY) /\
  snd (check_status_code DEFAULT_REPOSITORY TEST_REPOSITORY
                         server_error false)
  = Raise (HTTPError server_error) /\
  snd (check_status_code DEFAULT_REPOSITORY TEST_REPOSITORY ok_response false)
  = Return tt.
Proof.
  split; [|split; [|split]].
  - apply (proj1 (check_status_code_rules DEFAULT_REPOSITORY TEST_REPOSITORY
                    gone_legacy false)).
    split; [reflexivity | by exists "https://", "/pypi"].
  - apply (proj1 (proj2 (check_status_code_rules
                           DEFAULT_REPOSITORY TEST_REPOSITORY
                           not_allowed_lookalike false))).
    + intros [H _]. discriminate H.
    + split; [reflexivity | by exists "https://not", "/simple"].
  - apply (proj2 (proj2 (check_status_code_rules
                           DEFAULT_REPOSITORY TEST_REPOSITORY
                           server_error false))).
    + intros [H _]. discriminate H.
    + intros [H _]. discriminate H.
    + unfold error_status. cbn. lia.
  - apply (proj2 (proj2 (check_status_code_rules
                           DEFAULT_REPOSITORY TEST_REPOSITORY
                           ok_response false))).
    + intros [H _]. discriminate H.
    + intros [H _]. discriminate H.
    + unfold error_status. cbn. lia.
Defined.

Lemma signature_precedence_witness :
  attach_signature (mock (fun _ => false) (fun _ => ok_response))
                   signing_settings (signatures_of scenario_dists)
                   pkg_1_0 (initial 0%nat)
  = (Return (with_gpg_signature pkg_1_0 "pkg-1.0.tar.gz.asc"
               "contents of dist/pkg-1.0.tar.gz.asc"),
     mkState 0%nat
       [AddGpgSignature "dist/pkg-1.0.tar.gz.asc" "pkg-1.0.tar.gz.asc"] []).
Proof.
  apply (proj1 (signature_precedence
                  (mock (fun _ => false) (fun _ => ok_response))
                  DEFAULT_REPOSITORY TEST_REPOSITORY signing_settings)
               (signatures_of scenario_dists) pkg_1_0 (initial 0%nat)
               "dist/pkg-1.0.tar.gz.asc").
  vm_compute. reflexivity.
Defined.

Lemma empty_uploads_run_witness :
  upload (mock (fun _ => false) (fun _ => ok_response))
         DEFAULT_REPOSITORY TEST_REPOSITORY default_settings
         ["dist/pkg-1.0.tar.gz.asc"] (initial 0%nat)
  = (Return tt,
     mkState 0%nat
       (preamble default_settings ++ [ReleaseUrls [] []; Close]) []).
Proof.
  apply (proj2 (proj2 (empty_uploads_run
                         (mock (fun _ => false) (fun _ => ok_response))
                         DEFAULT_REPOSITORY TEST_REPOSITORY default_settings
                         ["dist/pkg-1.0.tar.gz.asc"] 0%nat eq_refl))).
  reflexivity.
Defined.

Lemma host_detection_is_substring_witness :
  snd (check_status_code DEFAULT_REPOSITORY TEST_REPOSITORY
                         not_allowed_lookalike false)
  = Raise (InvalidPyPIUploadURL
             (invalid_url_message DEFAULT_REPOSITORY TEST_REPOSITORY)) /\
  snd (check_status_code DEFAULT_REPOSITORY TEST_REPOSITORY
                         gone_elsewhere false)
  = Raise (HTTPError gone_elsewhere).
Proof.
  split.
  - apply (proj1 (proj1 (host_detection_is_substring
                           DEFAULT_REPOSITORY TEST_REPOSITORY
                           not_allowed_lookalike false)
                        eq_refl)
                 "https://not" "/simple").
    reflexivity.
  - apply (proj2 (proj2 (host_detection_is_substring
                           DEFAULT_REPOSITORY TEST_REPOSITORY
                           gone_elsewhere false)
                        eq_refl)).
    intros H. apply contains_mentions in H. discriminate H.
Defined.

(** * Further properties *)

(** ** What the status validator prints *)

Section ValidatorOutput.

Variables D T : string.

(** X1: [check_status_code] prints only on its way to an [HTTPError], and
    only when the body is not empty: the body after a header under
    [verbose], the one-line hint otherwise.  It prints nothing when it
    raises nothing, and nothing for the deprecated-host and invalid-URL
    errors. *)
Theorem check_status_code_output (response : Response) (verbose : bool) :
  (forall e,
      snd (check_status_code D T response verbose) = Raise e ->
      e <> HTTPError response ->
      fst (check_status_code D T response verbose) = []) /\
  (snd (check_status_code D T response verbose) = Return tt ->
   fst (check_status_code D T response verbose) = []) /\
  (snd (check_status_code D T response verbose) = Raise (HTTPError response) ->
   (text response = "" ->
    fst (check_status_code D T response verbose) = []) /\
   (text response <> "" -> verbose = true ->
    fst (check_status_code D T response verbose)
    = ["Content received from server:" ++ newline ++ text response]) /\
   (text response <> "" -> verbose = false ->
    fst (check_status_code D T response verbose)
    = ["NOTE: Try --verbose to see response content."])).
Proof.
  unfold check_status_code, raise_for_status.
  destruct ((status_code response =? 410)%Z
            && PyStr.contains (url response) "pypi.python.org").
  { cbn [fst snd]. repeat split; try done. }
  destruct ((status_code response =? 405)%Z
            && PyStr.contains (url response) "pypi.org").
  { cbn [fst snd]. repeat split; try done. }
  destruct ((400 <=? status_code response)%Z
            && (status_code response <? 600)%Z); cbn [fst snd].
  - split; [|split]; [congruence | discriminate |].
    intros _. destruct (text response) as [|c body]; cbn [PyStr.truthy].
    + repeat split; try done.
    + repeat split; try done; by intros _ ->.
  - repeat split; try done.
Qed.

(** X2: a response that [skip_upload] classifies as a skip is one that
    [check_status_code] would have refused with an [HTTPError]: skipping
    never hides a deprecated-host or invalid-URL error, and never applies
    to a response that would have passed. *)
Theorem skipped_would_have_failed (response : Response) (flag verbose : bool)
    (package : PackageFile) :
  skip_upload response flag package = true ->
  snd (check_status_code D T response verbose) = Raise (HTTPError response).
Proof.
  unfold skip_upload. intros H.
  apply andb_true_iff in H as [_ H].
  assert (Hs : status_code response = 409 \/ status_code response = 400
               \/ status_code response = 403).
  { apply orb_true_iff in H as [H | H];
      [apply orb_true_iff in H as [H | H]|].
    - left. by apply Z.eqb_eq.
    - right; left. apply andb_true_iff in H as [H _]. by apply Z.eqb_eq.
    - right; right. apply andb_true_iff in H as [H _]. by apply Z.eqb_eq. }
  rewrite check_generic.
  - apply raise_for_status_spec. unfold error_status. lia.
  - intros [H' _]. lia.
  - intros [H' _]. lia.
Qed.

End ValidatorOutput.

Lemma check_status_code_output_witness :
  fst (check_status_code DEFAULT_REPOSITORY TEST_REPOSITORY server_error true)
  = ["Content received from server:" ++ newline ++ "oops"].
Proof.
  apply (proj1 (proj2 (proj2 (proj2 (check_status_code_output
                                      DEFAULT_REPOSITORY TEST_REPOSITORY
                                      server_error true))
                             eq_refl))).
  - discriminate.
  - reflexivity.
Defined.

Lemma skipped_would_have_failed_witness :
  snd (check_status_code DEFAULT_REPOSITORY TEST_REPOSITORY
                         forbidden_response false)
  = Raise (HTTPError forbidden_response).
Proof.
  apply (skipped_would_have_failed DEFAULT_REPOSITORY TEST_REPOSITORY
           forbidden_response true false pkg_1_0).
  reflexivity.
Defined.

(** ** The order of the upload requests *)

Section Order.

Context {World : Type}.
Variable C : Collaborators World.
Variables D T : string.
Variable upload_settings : Settings.

Lemma attempted_app (evs1 evs2 : list event) :
  attempted (evs1 ++ evs2) = (attempted evs1 ++ attempted evs2)%list.
Proof. apply omap_app. Qed.

Lemma attempted_upload (package : PackageFile) (response : Response)
    (evs : list event) :
  attempted (Upload package response :: evs) = filename package :: attempted evs.
Proof. reflexivity. Qed.

Lemma attempted_prints (lines : list string) : attempted (map Print lines) = [].
Proof. induction lines; [reflexivity | exact IHlines]. Qed.

Lemma attempted_In (evs : list event) (package : PackageFile)
    (response : Response) :
  In (Upload package response) evs -> In (filename package) (attempted evs).
Proof.
  induction evs as [|ev evs IH]; [intros []|]. intros [-> | Hin].
  - by left.
  - specialize (IH Hin). destruct ev; try exact IH. by right.
Qed.

Lemma attach_signature_filename (signatures : gmap string string)
    (package : PackageFile) (st : State World) :
  exists package' w evs,
    attach_signature C upload_settings signatures package st =
      (Return package', mkState w (trace st ++ evs) (uploaded_packages st)) /\
    filename package' = filename package /\
    attempted evs = [].
Proof.
  unfold attach_signature.
  destruct (signatures !! signed_basefilename package) as [path|].
  - by eexists _, _, [_].
  - destruct (sign upload_settings).
    + unfold package_sign, bind, call, ret.
      destruct (gpg_sign C _ _ _ _) as [out w]. by eexists _, _, [_].
    + exists package, (world st), []. unfold ret. rewrite app_nil_r.
      by destruct st.
Qed.

Lemma skip_upload_off (response : Response) (package : PackageFile) :
  skip_upload response false package = false.
Proof. reflexivity. Qed.

(** An attempt makes exactly one upload request, after the signature
    actions and before any printing. *)
Lemma attempt_shape (signatures : gmap string string)
    (repository_url : string) (package : PackageFile) (st : State World) :
  exists package' evs1 resp lines res w acc,
    attempt C D T upload_settings signatures repository_url package st
    = (res,
       mkState w (trace st ++ evs1 ++ Upload package' resp :: map Print lines)
               acc) /\
    filename package' = filename package /\
    attempted evs1 = [] /\
    (skip_existing upload_settings = false -> res = Return tt ->
     acc = (uploaded_packages st ++ [package'])%list).
Proof.
  unfold attempt.
  destruct (attach_signature_filename signatures package st)
    as (pkg' & w2 & evs1 & Hrun & Hf & Hatt).
  unfold bind at 1. rewrite Hrun. unfold bind at 1, call.
  cbn [world trace uploaded_packages].
  destruct (repository_upload C pkg' w2) as [resp w3].
  exists pkg', evs1, resp.
  destruct (is_redirect resp).
  - exists []. unfold getitem.
    destruct (headers resp !! "location"); unfold bind, ret, raise;
      rewrite <- !app_assoc; cbn [app map]; eexists _, _, _;
      (split; [reflexivity|]); by repeat split.
  - destruct (skip_upload resp (skip_existing upload_settings) pkg')
      eqn:Hskip.
    + exists [skip_message pkg']. unfold print, emit.
      cbn [world trace uploaded_packages map].
      rewrite <- !app_assoc. cbn [app]. eexists _, _, _.
      split; [reflexivity|]. repeat split; try done.
      intros Hse. rewrite Hse, skip_upload_off in Hskip. discriminate Hskip.
    + unfold run_check_status_code.
      destruct (check_status_code D T resp (verbose upload_settings))
        as [lines r].
      exists lines. unfold bind. rewrite print_all_run.
      destruct r as [[]|e]; unfold ret, raise, append_uploaded;
        cbn [world trace uploaded_packages];
        rewrite <- !app_assoc; cbn [app]; eexists _, _, _;
        (split; [reflexivity|]); by repeat split.
Qed.

Lemma attempt_order (signatures : gmap string string)
    (repository_url : string) (package : PackageFile) (st : State World) :
  order_inv upload_settings [filename package] st
    (attempt C D T upload_settings signatures repository_url package st).
Proof.
  destruct (attempt_shape signatures repository_url package st)
    as (pkg' & evs1 & resp & lines & res & w & acc & -> & Hf & Hatt & Hacc).
  exists (evs1 ++ Upload pkg' resp :: map Print lines)%list.
  rewrite attempted_app, Hatt, attempted_upload, attempted_prints, Hf.
  cbn [fst snd trace uploaded_packages app].
  split; [reflexivity|]. split; [reflexivity|]. intros Hse.
  split; [by exists []|]. intros Hres. split; [reflexivity|].
  rewrite (Hacc Hse Hres), map_app. cbn [map]. by rewrite Hf.
Qed.

Lemma upload_one_order (signatures : gmap string string)
    (repository_url : string) (f : string) (st : State World) :
  order_inv upload_settings [f] st
    (upload_one C D T upload_settings signatures repository_url f st).
Proof.
  unfold upload_one.
  set (package := from_filename f (comment upload_settings)).
  pose proof (fun st1 => attempt_order signatures repository_url package st1)
    as Htail.
  change (filename package) with f in Htail.
  unfold bind at 1.
  destruct (skip_existing upload_settings) eqn:Hse.
  - unfold call at 1.
    destruct (package_is_uploaded C package (world st)) as [[] w1].
    + exists [PackageIsUploaded package true; Print (skip_message package)].
      unfold print, emit. cbn [fst snd trace uploaded_packages world].
      rewrite <- app_assoc.
      split; [reflexivity|]. split; [apply sublist_nil_l|]. congruence.
    + cbv beta iota.
      set (st1 := mkState w1 (trace st ++ [PackageIsUploaded package false])
                          (uploaded_packages st)).
      destruct (Htail st1) as (evs & Ht & Hsub & _).
      exists (PackageIsUploaded package false :: evs).
      rewrite Ht. subst st1. cbn [trace]. rewrite <- app_assoc.
      split; [reflexivity|]. split; [exact Hsub|]. congruence.
  - unfold ret. cbv beta iota. apply Htail.
Qed.

Lemma order_inv_seq (f : string) (rest : list string)
    (st : State World) (out1 out2 : result unit * State World) :
  order_inv upload_settings [f] st out1 ->
  order_inv upload_settings rest out1.2 out2 ->
  order_inv upload_settings (f :: rest) st
    (match out1.1 with Return _ => out2 | Raise e => (Raise e, out1.2) end).
Proof.
  intros (evs1 & Ht1 & Hs1 & H1) (evs2 & Ht2 & Hs2 & H2).
  destruct out1 as [[[]|e] st1]; cbn [fst snd] in *.
  - exists (evs1 ++ evs2)%list. rewrite Ht2, Ht1, attempted_app, app_assoc.
    split; [reflexivity|].
    split; [exact (sublist_app _ _ _ _ Hs1 Hs2)|].
    intros Hse. destruct (H1 Hse) as [_ H1']. destruct (H1' eq_refl) as [-> Hu1].
    destruct (H2 Hse) as [[r2 Hr2] H2'].
    split; [exists r2; by rewrite Hr2 at 1|].
    intros Hres. destruct (H2' Hres) as [-> Hu2].
    split; [reflexivity|]. by rewrite Hu2, Hu1, <- app_assoc.
  - exists evs1. split; [exact Ht1|].
    split; [exact (sublist_inserts_r rest _ _ Hs1)|].
    intros Hse. destruct (H1 Hse) as [[r1 Hr1] _].
    split; [|discriminate]. exists (r1 ++ rest)%list.
    change (f :: rest) with ([f] ++ rest)%list. by rewrite Hr1 at 1; rewrite <- app_assoc.
Qed.

Lemma upload_loop_order (signatures : gmap string string)
    (repository_url : string) (uploads : list string) (st : State World) :
  order_inv upload_settings uploads st
    (upload_loop C D T upload_settings signatures repository_url uploads st).
Proof.
  revert st; induction uploads as [|f rest IH]; intros st.
  - exists []. cbn [upload_loop]. unfold ret. cbn [fst snd].
    rewrite !app_nil_r.
    split; [reflexivity|]. split; [apply sublist_nil|]. intros _.
    split; [by exists []|]. by intros _.
  - cbn [upload_loop]. unfold bind.
    pose proof (upload_one_order signatures repository_url f st) as H1.
    pose proof (order_inv_seq f rest st _ _ H1 (IH _)) as H.
    destruct (upload_one _ _ _ _ _ _ _ _) as [[[]|e] st1]; exact H.
Qed.

Lemma attempted_preamble : attempted (preamble upload_settings) = [].
Proof. reflexivity. Qed.

Lemma attempted_report (packages : list PackageFile) (urls : list string) :
  attempted (ReleaseUrls packages urls :: view_lines urls ++ [Close]) = [].
Proof.
  change (attempted (view_lines urls ++ [Close]) = []).
  rewrite attempted_app. destruct urls as [|u urls]; [reflexivity|].
  change (attempted (map Print (u :: urls)) ++ [] = [])%list.
  by rewrite attempted_prints.
Qed.

(** The order of the upload requests of a whole run. *)
Lemma upload_order (dists : list string) (w : World) :
  order_inv upload_settings (uploads_of (_find_dists C dists w))
    (mkState w [] [])
    (upload C D T upload_settings dists (initial w)).
Proof.
  rewrite upload_run. cbn [world trace initial app].
  destruct (check_repository_url C upload_settings) as [e|].
  { exists []. cbn [fst snd trace].
    split; [reflexivity|]. split; [apply sublist_nil_l|]. intros _.
    split; [by eexists|discriminate]. }
  destruct (upload_loop_order (signatures_of (_find_dists C dists w))
              (repository upload_settings)
              (uploads_of (_find_dists C dists w))
              (mkState w (preamble upload_settings) []))
    as (evs & Ht & Hsub & H).
  destruct (upload_loop _ _ _ _ _ _ _ _) as [[[]|e] st_b];
    cbn [fst snd trace uploaded_packages map app] in *.
  - destruct (release_urls C (uploaded_packages st_b) (world st_b))
      as [urls w'].
    exists (preamble upload_settings ++ evs
            ++ ReleaseUrls (uploaded_packages st_b) urls
               :: view_lines urls ++ [Close])%list.
    cbn [fst snd trace uploaded_packages].
    rewrite !attempted_app, attempted_preamble, attempted_report, app_nil_r.
    cbn [app]. rewrite Ht, <- app_assoc.
    split; [reflexivity|]. split; [exact Hsub|]. exact H.
  - exists (preamble upload_settings ++ evs)%list.
    rewrite attempted_app, attempted_preamble. cbn [app].
    split; [exact Ht|]. split; [exact Hsub|]. exact H.
Qed.

(** X3: over a whole run the upload requests are made for paths of the
    uploads sequence, in its order and at most once for each occurrence;
    so no more requests than paths are made, and a path ending with
    [.asc] is never uploaded as a package. *)
Theorem uploads_in_input_order (dists : list string) (w : World) :
  sublist (attempted (trace (upload C D T upload_settings dists (initial w)).2))
          (uploads_of (_find_dists C dists w)) /\
  (length
     (attempted (trace (upload C D T upload_settings dists (initial w)).2))
   <= length (uploads_of (_find_dists C dists w)))%nat /\
  (forall package response,
      In (Upload package response)
         (trace (upload C D T upload_settings dists (initial w)).2) ->
      In (filename package) (_find_dists C dists w) /\
      ~ ends_with_asc (filename package)).
Proof.
  destruct (upload_order dists w) as (evs & Ht & Hsub & _).
  cbn [trace app] in Ht. rewrite Ht.
  split; [exact Hsub|]. split; [by apply sublist_length|].
  intros package response Hin. apply attempted_In in Hin.
  apply list_elem_of_In in Hin.
  apply (elem_of_sublist _ _ _ Hin), list_elem_of_In in Hsub.
  apply uploads_of_In in Hsub as [H1 H2].
  split; [exact H1 | by apply is_signature_false].
Qed.

(** X4: without skip-existing the upload requests are an initial part of
    the uploads sequence, and a run that completes has requested every
    path of it, in order, and accumulated a package for each. *)
Theorem completed_run_uploads_all (dists : list string) (w : World) :
  skip_existing upload_settings = false ->
  (exists rest,
      uploads_of (_find_dists C dists w)
      = (attempted (trace (upload C D T upload_settings dists (initial w)).2)
         ++ rest)%list) /\
  ((upload C D T upload_settings dists (initial w)).1 = Return tt ->
   attempted (trace (upload C D T upload_settings dists (initial w)).2)
   = uploads_of (_find_dists C dists w) /\
   map filename
       (uploaded_packages (upload C D T upload_settings dists (initial w)).2)
   = uploads_of (_find_dists C dists w)).
Proof.
  intros Hse. destruct (upload_order dists w) as (evs & Ht & _ & H).
  cbn [trace uploaded_packages map app] in *. rewrite Ht.
  exact (H Hse).
Qed.

(** X5: the release URLs are asked for once, after the loop and with the
    accumulated packages, and the run then prints its report and closes;
    a run that raises never asks for them. *)
Theorem release_query_after_loop (dists : list string) (w : World) :
  ((upload C D T upload_settings dists (initial w)).1 = Return tt ->
   exists evs urls,
     trace (upload C D T upload_settings dists (initial w)).2
     = (preamble upload_settings ++ evs
        ++ ReleaseUrls
             (uploaded_packages
                (upload C D T upload_settings dists (initial w)).2) urls
           :: view_lines urls ++ [Close])%list /\
     Forall (fun ev => ~ is_release_query ev) evs) /\
  (forall e,
      (upload C D T upload_settings dists (initial w)).1 = Raise e ->
      Forall (fun ev => ~ is_release_query ev)
             (trace (upload C D T upload_settings dists (initial w)).2)).
Proof.
  assert (Hloop : forall sigs evs,
             Forall (loop_event upload_settings sigs) evs ->
             Forall (fun ev => ~ is_release_query ev) evs).
  { intros sigs evs. apply List.Forall_impl.
    intros ev Hl Hq. destruct ev; first [exact Hq | exact Hl]. }
  pose proof (upload_shape C D T upload_settings dists w) as H.
  cbv zeta in H.
  destruct H as [(e & _ & ->) | (_ & evs & Hev & _ & H)].
  { split; [discriminate|]. intros _ _. constructor. }
  destruct H as [(e & -> & -> & _) | (urls & -> & -> & _)].
  - split; [discriminate|]. intros _ _. apply List.Forall_app.
    split; [|by apply (Hloop _ _ Hev)].
    unfold preamble.
    repeat first [apply List.Forall_nil
                 | apply List.Forall_cons; [exact (fun H => H)|]].
  - split; [|discriminate]. intros _. exists evs, urls.
    split; [reflexivity | by apply (Hloop _ _ Hev)].
Qed.

End Order.

(** ** The signature of a package is found by name *)

Section Matching.
Import PyStrFacts.

Lemma basename_is_suffix (path : string) :
  exists dir, path = dir ++ PyStr.basename path.
Proof.
  induction path as [|c path [dir IH]]; [by exists ""|].
  cbn [PyStr.basename].
  destruct (PyStr.contains path "/").
  - exists (String c dir). cbn [append]. by rewrite <- IH.
  - destruct (Ascii.eqb c "/"); [by exists (String c "") | by exists ""].
Qed.

Lemma basename_asc (path stem : string) :
  PyStr.basename path = stem ++ ".asc" -> is_signature path = true.
Proof.
  intros H. apply endswith_spec.
  destruct (basename_is_suffix path) as [dir Hd].
  exists (dir ++ stem). by rewrite append_assoc, <- H.
Qed.

Lemma signatures_fold_is_Some (dists : list string)
    (m : gmap string string) (k : string) :
  is_Some (foldl (fun m d => <[PyStr.basename d := d]> m) m
                 (List.filter is_signature dists) !! k) <->
  is_Some (m !! k) \/
  exists g, In g dists /\ is_signature g = true /\ PyStr.basename g = k.
Proof.
  revert m; induction dists as [|d ds IH]; intros m.
  - cbn [List.filter foldl]. split; [by left|].
    intros [H | (g & [] & _)]. exact H.
  - cbn [List.filter]. destruct (is_signature d) eqn:Hd.
    + cbn [foldl]. rewrite IH, lookup_insert_is_Some'. split.
      * intros [[Hk | Hm] | (g & Hin & Hg & Hk)].
        -- right. exists d. repeat split; [by left | done | done].
        -- by left.
        -- right. exists g. repeat split; [by right | done | done].
      * intros [Hm | (g & [-> | Hin] & Hg & Hk)].
        -- left. by right.
        -- left. by left.
        -- right. by exists g.
    + rewrite IH. split.
      * intros [Hm | (g & Hin & Hg & Hk)]; [by left|].
        right. exists g. repeat split; [by right | done | done].
      * intros [Hm | (g & [-> | Hin] & Hg & Hk)]; [by left | congruence |].
        right. by exists g.
Qed.

(** X8: a package finds a pre-supplied signature exactly when some input
    path is named as the package's file with [.asc] appended, whatever the
    directories of the two paths. *)
Theorem signature_found_by_basename (dists : list string) (f : string)
    (c : option string) :
  is_Some (signatures_of dists !! signed_basefilename (from_filename f c)) <->
  exists g, In g dists /\ PyStr.basename g = PyStr.basename f ++ ".asc".
Proof.
  unfold signatures_of. rewrite signatures_fold_is_Some.
  cbn [signed_basefilename from_filename]. split.
  - intros [H | (g & Hin & _ & Hk)].
    + rewrite lookup_empty in H. by destruct H.
    + by exists g.
  - intros (g & Hin & Hk). right. exists g.
    repeat split; [done | by apply (basename_asc g (PyStr.basename f)) | done].
Qed.

End Matching.

(** ** The verbose flag only changes what is printed *)

Section Verbose.

Context {World : Type}.
Variable C : Collaborators World.
Variables D T : string.
Variable upload_settings : Settings.
Variable v : bool.

Local Abbreviation M := (@M World).

Lemma same_ret {A} (a : A) : same_but_prints_M (@ret World A a) (ret a).
Proof. by intros st st' H. Qed.

Lemma same_raise {A} (e : exn) : same_but_prints_M (@raise World A e) (raise e).
Proof. by intros st st' H. Qed.

Lemma same_bind {A B} (m m' : M A) (k k' : A -> M B) :
  same_but_prints_M m m' ->
  (forall a, same_but_prints_M (k a) (k' a)) ->
  same_but_prints_M (bind m k) (bind m' k').
Proof.
  intros Hm Hk st st' H. unfold bind.
  destruct (Hm st st' H) as [Hr Hs].
  destruct (m st) as [[a|e] st1], (m' st') as [[a'|e'] st1'];
    cbn [fst snd] in *; try discriminate Hr.
  - assert (a = a') as <- by congruence. by apply Hk.
  - split; [congruence | exact Hs].
Qed.

Lemma same_step {A} (f : World -> A * World) (g : State World -> A -> event) :
  (forall st st', same_but_prints st st' -> g st = g st') ->
  same_but_prints_M
    (fun st => (Return (f (world st)).1,
                mkState (f (world st)).2
                        (trace st ++ [g st (f (world st)).1])
                        (uploaded_packages st)))
    (fun st => (Return (f (world st)).1,
                mkState (f (world st)).2
                        (trace st ++ [g st (f (world st)).1])
                        (uploaded_packages st))).
Proof.
  intros Hg st st' H. pose proof (Hg st st' H) as Hg'.
  destruct H as (Hw & Hu & Ht). cbn [fst snd].
  rewrite Hw, Hg'. split; [reflexivity|].
  repeat split; cbn [world uploaded_packages trace]; try done.
  by rewrite !List.filter_app, Ht.
Qed.

Lemma same_call {A} (f : World -> A * World) (ev : A -> event) :
  same_but_prints_M (call f ev) (call f ev).
Proof.
  intros st st' H.
  pose proof (same_step f (fun _ => ev) (fun _ _ _ => eq_refl) st st' H) as Hs.
  unfold call. cbn [fst snd] in Hs.
  by destruct (f (world st)), (f (world st')).
Qed.

Lemma same_emit (e : event) : same_but_prints_M (@emit World e) (emit e).
Proof.
  intros st st' (Hw & Hu & Ht). unfold emit. cbn [fst snd].
  split; [reflexivity|].
  repeat split; cbn [world uploaded_packages trace]; try done.
  by rewrite !List.filter_app, Ht.
Qed.

Lemma same_print_all (lines lines' : list string) :
  same_but_prints_M (@print_all World lines) (print_all lines').
Proof.
  intros st st' (Hw & Hu & Ht). rewrite !print_all_run. cbn [fst snd].
  split; [reflexivity|].
  repeat split; cbn [world uploaded_packages trace]; try done.
  rewrite !List.filter_app, Ht. f_equal.
  assert (Hp : forall l, List.filter not_print (map Print l) = [])
    by (induction l; [reflexivity | exact IHl]).
  by rewrite !Hp.
Qed.

Lemma same_append_uploaded (package : PackageFile) :
  same_but_prints_M (@append_uploaded World package) (append_uploaded package).
Proof.
  intros st st' (Hw & Hu & Ht). unfold append_uploaded. cbn [fst snd].
  split; [reflexivity|].
  repeat split; cbn [world uploaded_packages trace]; try done.
  by rewrite Hu.
Qed.

Lemma same_attach_signature (signatures : gmap string string)
    (package : PackageFile) :
  same_but_prints_M
    (attach_signature C upload_settings signatures package)
    (attach_signature C (with_verbose v upload_settings) signatures package).
Proof.
  unfold attach_signature. cbn [with_verbose sign sign_with identity].
  destruct (signatures !! signed_basefilename package) as [path|].
  - intros st st' (Hw & Hu & Ht). unfold add_gpg_signature. cbn [fst snd].
    rewrite Hw. split; [reflexivity|].
    repeat split; cbn [world uploaded_packages trace]; try done.
    by rewrite !List.filter_app, Ht.
  - destruct (sign upload_settings); [|apply same_ret].
    unfold package_sign. apply same_bind; [apply same_call|].
    intros out. apply same_ret.
Qed.

Lemma check_status_code_result_verbose (response : Response) (v1 v2 : bool) :
  snd (check_status_code D T response v1)
  = snd (check_status_code D T response v2).
Proof.
  unfold check_status_code.
  destruct ((status_code response =? 410)%Z
            && PyStr.contains (url response) "pypi.python.org");
    [reflexivity|].
  destruct ((status_code response =? 405)%Z
            && PyStr.contains (url response) "pypi.org");
    [reflexivity|].
  by destruct (raise_for_status response).
Qed.

Lemma same_run_check_status_code (response : Response) :
  same_but_prints_M
    (@run_check_status_code World D T upload_settings response)
    (run_check_status_code D T (with_verbose v upload_settings) response).
Proof.
  unfold run_check_status_code. cbn [with_verbose verbose].
  pose proof (check_status_code_result_verbose response
                (verbose upload_settings) v) as H.
  destruct (check_status_code D T response (verbose upload_settings))
    as [lines r], (check_status_code D T response v) as [lines' r'].
  cbn [snd] in H. subst r'.
  apply same_bind; [apply same_print_all|].
  intros _. destruct r; [apply same_ret | apply same_raise].
Qed.

Lemma same_upload_one (signatures : gmap string string)
    (repository_url f : string) :
  same_but_prints_M
    (upload_one C D T upload_settings signatures repository_url f)
    (upload_one C D T (with_verbose v upload_settings) signatures
                repository_url f).
Proof.
  unfold upload_one. cbn [with_verbose skip_existing comment].
  apply same_bind.
  { destruct (skip_existing upload_settings);
      [apply same_call | apply same_ret]. }
  intros [|]; [apply same_emit|].
  unfold attempt. cbn [with_verbose skip_existing].
  apply same_bind; [apply same_attach_signature|]. intros package.
  apply same_bind; [apply same_call|]. intros resp.
  destruct (is_redirect resp).
  - apply same_bind; [|intros location; apply same_raise].
    unfold getitem. destruct (headers resp !! "location");
      [apply same_ret | apply same_raise].
  - destruct (skip_upload resp (skip_existing upload_settings) package);
      [apply same_emit|].
    apply same_bind; [apply same_run_check_status_code|].
    intros _. apply same_append_uploaded.
Qed.

Lemma same_upload_loop (signatures : gmap string string)
    (repository_url : string) (uploads : list string) :
  same_but_prints_M
    (upload_loop C D T upload_settings signatures repository_url uploads)
    (upload_loop C D T (with_verbose v upload_settings) signatures
                 repository_url uploads).
Proof.
  induction uploads as [|f rest IH]; [apply same_ret|].
  cbn [upload_loop]. apply same_bind; [apply same_upload_one|].
  intros _. exact IH.
Qed.

Lemma same_upload (dists : list string) :
  check_repository_url C (with_verbose v upload_settings)
  = check_repository_url C upload_settings ->
  same_but_prints_M
    (upload C D T upload_settings dists)
    (upload C D T (with_verbose v upload_settings) dists).
Proof.
  intros Hcheck st st' H. unfold upload. cbv beta zeta. rewrite Hcheck.
  cbn [with_verbose repository].
  destruct H as (Hw & Hu & Ht). rewrite Hw.
  assert (H : same_but_prints st st') by by repeat split.
  clear Hw Hu Ht.
  generalize (_find_dists C dists (world st')). intros found.
  revert st st' H.
  apply same_bind.
  { destruct (check_repository_url C upload_settings);
      [apply same_raise | apply same_ret]. }
  intros _. apply same_bind; [apply same_emit|].
  intros _. apply same_bind; [apply same_emit|].
  intros _. apply same_bind.
  { intros st st' (Hw & Hu & Ht). cbn [fst snd]. by repeat split. }
  intros _. apply same_bind; [apply same_upload_loop|].
  intros _. apply same_bind.
  { intros st st' H. pose proof H as (Hw & Hu & Ht). rewrite Hu.
    by apply same_call. }
  intros urls. apply same_bind; [|intros _; apply same_emit].
  destruct urls as [|u urls]; [apply same_ret|].
  apply same_bind; [apply same_emit|]. intros _. apply same_print_all.
Qed.

(** X9: the verbose flag changes nothing but the lines printed: a run with
    the flag set either way gives the same result, leaves the same world
    and the same accumulated packages, and performs the same actions other
    than printing, in the same order (the repository URL check being one
    that does not look at the flag). *)
Theorem verbose_only_changes_prints (dists : list string) (w : World) :
  check_repository_url C (with_verbose v upload_settings)
  = check_repository_url C upload_settings ->
  (upload C D T upload_settings dists (initial w)).1
  = (upload C D T (with_verbose v upload_settings) dists (initial w)).1 /\
  world (upload C D T upload_settings dists (initial w)).2
  = world (upload C D T (with_verbose v upload_settings) dists (initial w)).2
  /\
  uploaded_packages (upload C D T upload_settings dists (initial w)).2
  = uploaded_packages
      (upload C D T (with_verbose v upload_settings) dists (initial w)).2 /\
  List.filter not_print (trace (upload C D T upload_settings dists (initial w)).2)
  = List.filter not_print
      (trace (upload C D T (with_verbose v upload_settings) dists
                     (initial w)).2).
Proof.
  intros Hcheck.
  assert (H : same_but_prints (initial w) (initial w)) by by repeat split.
  destruct (same_upload dists Hcheck _ _ H) as (Hr & Hw & Hu & Ht).
  by repeat split.
Qed.

End Verbose.

(** ** Concrete runs of the further properties *)

Lemma completed_run_uploads_all_witness :
  attempted
    (trace (upload (mock (fun _ => false) (fun _ => ok_response))
                   DEFAULT_REPOSITORY TEST_REPOSITORY default_settings
                   scenario_dists (initial 0%nat)).2)
  = uploads_of scenario_dists /\
  map filename
      (uploaded_packages
         (upload (mock (fun _ => false) (fun _ => ok_response))
                 DEFAULT_REPOSITORY TEST_REPOSITORY default_settings
                 scenario_dists (initial 0%nat)).2)
  = uploads_of scenario_dists.
Proof.
  apply (proj2 (completed_run_uploads_all
                  (mock (fun _ => false) (fun _ => ok_response))
                  DEFAULT_REPOSITORY TEST_REPOSITORY default_settings
                  scenario_dists 0%nat eq_refl)).
  vm_compute. reflexivity.
Defined.

Lemma verbose_only_changes_prints_witness :
  (upload (mock (fun _ => false) (fun _ => server_error))
          DEFAULT_REPOSITORY TEST_REPOSITORY default_settings
          scenario_dists (initial 0%nat)).1
  = (upload (mock (fun _ => false) (fun _ => server_error))
            DEFAULT_REPOSITORY TEST_REPOSITORY
            (with_verbose true default_settings)
            scenario_dists (initial 0%nat)).1.
Proof.
  apply (verbose_only_changes_prints
           (mock (fun _ => false) (fun _ => server_error))
           DEFAULT_REPOSITORY TEST_REPOSITORY default_settings true
           scenario_dists 0%nat eq_refl).
Defined.
